(** * golem/model.py: typed column codecs and the schema-version gate

    A shallow embedding of the persistence layer of the golem node
    ([golem/model.py]) together with the properties its specification
    states about it.  Python values are embedded as the inductive type
    [pyval]; raising an exception is the [Raise] constructor of [result]. *)

From Stdlib Require Import ZArith NArith Lia Ascii String List Bool.
From Stdlib.Strings Require Import Byte.
From stdpp Require Import base option list strings gmap.

Set Warnings "-register-all".
Local Open Scope string_scope.

(** ** Python values and exceptions *)

Module Py.

(** The exceptions the layer can raise. *)
Inductive exn : Type :=
| TypeError
| ValueError
| FormatError
| OperationalError.

Inductive result (A : Type) : Type :=
| Ok (a : A)
| Raise (e : exn).
Arguments Ok {A} a.
Arguments Raise {A} e.

Definition bind {A B} (r : result A) (k : A -> result B) : result B :=
  match r with
  | Ok a => k a
  | Raise e => Raise e
  end.

(** The values that reach the codecs.  [VEnum cls name value] is the
    member [name] of the [enum.Enum] subclass [cls]; [VDatetime t] is a
    [datetime.datetime], as a number of clock ticks; [VFloat bits] is a
    [float], kept as its bit pattern (no arithmetic is done on it). *)
Inductive pyval : Type :=
| VNone
| VBool (b : bool)
| VInt (z : Z)
| VFloat (bits : Z)
| VStr (s : string)
| VBytes (b : list byte)
| VList (l : list pyval)
| VTuple (l : list pyval)
| VDict (d : list (pyval * pyval))
| VEnum (cls : string) (name : string) (value : Z)
| VDatetime (t : Z).

(** [isinstance(value, int)]: [bool] is a subclass of [int]. *)
Definition isinstance_int (v : pyval) : bool :=
  match v with
  | VInt _ | VBool _ => true
  | _ => false
  end.

(** The integer an instance of [int] stands for. *)
Definition int_of (v : pyval) : option Z :=
  match v with
  | VInt z => Some z
  | VBool b => Some (if b then 1 else 0)%Z
  | _ => None
  end.

End Py.
Import Py.

Notation "x <- r ;; k" := (Py.bind r (fun x => k))
  (at level 100, r at next level, right associativity, only parsing).

(** ** Hexadecimal text *)

Module Hex.

Local Open Scope N_scope.

(** The lowercase digit of a value below sixteen. *)
Definition hex_digit (d : N) : ascii :=
  match d with
  | 0 => "0" | 1 => "1" | 2 => "2" | 3 => "3" | 4 => "4" | 5 => "5"
  | 6 => "6" | 7 => "7" | 8 => "8" | 9 => "9" | 10 => "a" | 11 => "b"
  | 12 => "c" | 13 => "d" | 14 => "e" | _ => "f"
  end%char.

(** The value of a hexadecimal digit, in either case. *)
Definition hex_val (c : ascii) : option N :=
  let n := N_of_ascii c in
  if (48 <=? n) && (n <=? 57) then Some (n - 48)
  else if (97 <=? n) && (n <=? 102) then Some (n - 87)
  else if (65 <=? n) && (n <=? 70) then Some (n - 55)
  else None.

(** Digits of [n], most significant first, in front of [acc]; one digit
    per unit of fuel. *)
Fixpoint hex_digits (fuel : nat) (n : N) (acc : string) : string :=
  match fuel with
  | O => acc
  | S f =>
      let acc' := String (hex_digit (n mod 16)) acc in
      if n / 16 =? 0 then acc' else hex_digits f (n / 16) acc'
  end.

(** [format(n, 'x')] for [n >= 0]: no prefix, no padding, ["0"] for zero. *)
Definition to_hex (n : N) : string :=
  hex_digits (S (N.to_nat (N.log2 n))) n "".

(** Text made of hexadecimal digits only. *)
Fixpoint all_hex (s : string) : bool :=
  match s with
  | EmptyString => true
  | String c t => bool_decide (is_Some (hex_val c)) && all_hex t
  end.

(** Some character of the text is not a hexadecimal digit. *)
Fixpoint has_non_hex (s : string) : bool :=
  match s with
  | EmptyString => false
  | String c t => bool_decide (hex_val c = None) || has_non_hex t
  end.

End Hex.

(** ** BigIntegerField *)

Module BigIntegerField.

Import Hex.

(** [format(value, 'x')]: a minus sign, then the digits of the magnitude. *)
Definition format_x (z : Z) : string :=
  if (z <? 0)%Z then String "-" (to_hex (Z.abs_N z)) else to_hex (Z.abs_N z).

(** White space as [int()] strips it: the ASCII white space, and in a
    [str] ([wide]) also the no-break space and the next-line character;
    the separators 28 to 31 are not stripped. *)
Definition is_space (wide : bool) (c : ascii) : bool :=
  let n := N_of_ascii c in
  ((9 <=? n) && (n <=? 13) || (n =? 32)
   || wide && ((n =? 133) || (n =? 160)))%N.

Fixpoint lstrip (wide : bool) (s : string) : string :=
  match s with
  | String c t => if is_space wide c then lstrip wide t else s
  | EmptyString => EmptyString
  end.

Fixpoint all_space (wide : bool) (s : string) : bool :=
  match s with
  | String c t => is_space wide c && all_space wide t
  | EmptyString => true
  end.

(** The digits of an integer literal in base sixteen: hexadecimal digits
    with single underscores between them, then only trailing white space.
    [need_digit] holds at the start and after an underscore. *)
Fixpoint parse_hex (wide : bool) (need_digit : bool) (acc : N) (s : string)
  : option N :=
  match s with
  | EmptyString => if need_digit then None else Some acc
  | String c t =>
      match hex_val c with
      | Some d => parse_hex wide false (16 * acc + d) t
      | None =>
          if need_digit then None
          else if Ascii.eqb c "_" then parse_hex wide true acc t
          else if all_space wide s then Some acc else None
      end
  end.

(** An optional sign in front of the literal. *)
Definition split_sign (s : string) : bool * string :=
  match s with
  | String "-" t => (true, t)
  | String "+" t => (false, t)
  | _ => (false, s)
  end.

(** An optional [0x] or [0X] prefix, itself optionally followed by one
    underscore. *)
Definition skip_prefix (s : string) : string :=
  match s with
  | String "0" (String x t) =>
      if Ascii.eqb x "x" || Ascii.eqb x "X" then
        match t with
        | String "_" t' => t'
        | _ => t
        end
      else s
  | _ => s
  end.

(** [int(s, 16)] on text: a [str] when [wide], else [bytes]. *)
Definition int16 (wide : bool) (s : string) : result Z :=
  let (neg, body) := split_sign (lstrip wide s) in
  match parse_hex wide true 0 (skip_prefix body) with
  | Some n => Ok (if neg then - Z.of_N n else Z.of_N n)%Z
  | None => Raise ValueError
  end.

(** [BigIntegerField.db_value] *)
Definition db_value (value : pyval) : result string :=
  match int_of value with
  | None => Raise TypeError
  | Some z => Ok (format_x z)
  end.

(** [BigIntegerField.python_value]: a [None] falls through the [if] and
    the method returns [None]; [int(value, 16)] takes text only. *)
Definition python_value (value : pyval) : result pyval :=
  match value with
  | VNone => Ok VNone
  | VStr s => z <- int16 true s ;; Ok (VInt z)
  | VBytes b => z <- int16 false (string_of_list_byte b) ;; Ok (VInt z)
  | _ => Raise TypeError
  end.

End BigIntegerField.


(** ** RawCharField *)

Module RawCharField.

Import Hex.

(** Modelled from the spec: [golem.utils.encode_hex] is not part of this
    file's source; the specification has it "hex-encode bytes to a
    lowercase hex string", two digits a byte, and (as every codec)
    reject a value of the wrong domain type with a type error. *)
Fixpoint encode_hex_bytes (b : list byte) : string :=
  match b with
  | [] => EmptyString
  | x :: t =>
      String (hex_digit (Byte.to_N x / 16))
        (String (hex_digit (Byte.to_N x mod 16)) (encode_hex_bytes t))
  end.

Definition encode_hex (value : pyval) : result string :=
  match value with
  | VBytes b => Ok (encode_hex_bytes b)
  | _ => Raise TypeError
  end.

Definition byte_of_N (n : N) : byte :=
  match Byte.of_N n with
  | Some b => b
  | None => x00
  end.

(** Modelled from the spec: [golem.utils.decode_hex] is not part of this
    file's source; the specification has it "hex-decode string back to
    bytes" and fail "with FormatError on odd-length or non-hex-digit
    input". *)
Fixpoint decode_hex (s : string) : result (list byte) :=
  match s with
  | EmptyString => Ok []
  | String _ EmptyString => Raise FormatError
  | String hi (String lo t) =>
      match hex_val hi, hex_val lo with
      | Some h, Some l =>
          rest <- decode_hex t ;; Ok (byte_of_N (16 * h + l) :: rest)
      | _, _ => Raise FormatError
      end
  end.

(** [RawCharField.db_value]: [str(encode_hex(value))]; [str] of a string
    is that string. *)
Definition db_value (value : pyval) : result string :=
  encode_hex value.

(** [RawCharField.python_value] *)
Definition python_value (value : string) : result pyval :=
  b <- decode_hex value ;; Ok (VBytes b).

End RawCharField.

(** ** EnumField *)

Module EnumField.

(** An [enum.Enum] subclass: its name and its members, each a name and
    an integer value, in definition order. *)
Record enum_type : Type := {
  enum_name : string;
  members : list (string * Z)
}.

Definition member_eqb (m : string * Z) (name : string) (value : Z) : bool :=
  String.eqb (fst m) name && Z.eqb (snd m) value.

(** [isinstance(value, enum_type)]: the instances of an enumeration are
    its members. *)
Definition isinstance (value : pyval) (E : enum_type) : bool :=
  match value with
  | VEnum cls name v =>
      String.eqb cls (enum_name E)
      && existsb (fun m => member_eqb m name v) (members E)
  | _ => false
  end.

(** [value] is a member of the enumeration [E]. *)
Definition is_member (E : enum_type) (value : pyval) : Prop :=
  exists name v,
    value = VEnum (enum_name E) name v /\ In (name, v) (members E).

(** The members listed are the canonical ones: in Python a second name
    for a value is an alias of the first member, not a member. *)
Definition canonical (E : enum_type) : Prop :=
  NoDup (map snd (members E)).

(** [EnumField.db_value] *)
Definition db_value (E : enum_type) (value : pyval) : result Z :=
  if isinstance value E then
    match value with
    | VEnum _ _ v => Ok v
    | _ => Raise TypeError
    end
  else Raise TypeError.

(** [enum_type(value)]: the member that has this value, [ValueError]
    when there is none. *)
Definition call (E : enum_type) (value : Z) : result pyval :=
  match List.find (fun m => Z.eqb (snd m) value) (members E) with
  | Some m => Ok (VEnum (enum_name E) (fst m) (snd m))
  | None => Raise ValueError
  end.

(** [EnumField.python_value] *)
Definition python_value (E : enum_type) (value : Z) : result pyval :=
  call E value.

End EnumField.

(** [PaymentStatus]: the status of a payment. *)
Definition PaymentStatus : EnumField.enum_type :=
  {| EnumField.enum_name := "PaymentStatus";
     EnumField.members := [("awaiting", 1%Z); ("sent", 2%Z); ("confirmed", 3%Z)] |}.

(** ** The SQLite file and the statements run on it *)

Module Sqlite.

(** A stored row: column name to stored value. *)
Definition row : Type := gmap string pyval.

(** What the layer sees of a database file: the [user_version] slot of
    its header and its tables, each with its rows. *)
Record file : Type := {
  user_version : Z;
  tables : gmap string (list row)
}.

Definition empty_file : file :=
  {| user_version := 0; tables := ∅ |}.

(** The statements [create_database] has the engine run. *)
Inductive statement : Type :=
| PragmaUserVersion
| PragmaSetUserVersion (version : Z)
| DropTableIfExists (table : string)
| CreateTableIfNotExists (table : string).

(** A computation on the file that returns a value and the statements
    it ran, in order. *)
Definition Sql (A : Type) : Type := file -> A * file * list statement.

Definition ret {A} (a : A) : Sql A := fun f => (a, f, []).

Definition bind {A B} (m : Sql A) (k : A -> Sql B) : Sql B :=
  fun f =>
    let '(a, f1, l1) := m f in
    let '(b, f2, l2) := k a f1 in
    (b, f2, (l1 ++ l2)%list).

Definition result_of {A} (r : A * file * list statement) : A := fst (fst r).
Definition file_of {A} (r : A * file * list statement) : file := snd (fst r).
Definition ran {A} (r : A * file * list statement) : list statement := snd r.

(** [PRAGMA user_version] *)
Definition pragma_user_version : Sql Z :=
  fun f => (user_version f, f, [PragmaUserVersion]).

(** The [user_version] slot is a signed 32-bit integer of the file
    header. *)
Definition int32 (v : Z) : bool :=
  ((- 2 ^ 31 <=? v) && (v <=? 2 ^ 31 - 1))%Z.

(** What the slot holds after [PRAGMA user_version = version]: SQLite
    reads an integer literal outside the signed 32-bit range as 0. *)
Definition stored_version (version : Z) : Z :=
  if int32 version then version else 0%Z.

(** [PRAGMA user_version = version] *)
Definition pragma_set_user_version (version : Z) : Sql unit :=
  fun f => (tt, {| user_version := stored_version version;
                   tables := tables f |},
            [PragmaSetUserVersion version]).

(** [DROP TABLE IF EXISTS table]: an absent table is no error. *)
Definition drop_table_if_exists (table : string) : Sql unit :=
  fun f => (tt, {| user_version := user_version f;
                   tables := delete table (tables f) |},
            [DropTableIfExists table]).

(** [CREATE TABLE IF NOT EXISTS table]: a new table has no rows, a table
    that exists keeps its rows. *)
Definition create_table_if_not_exists (table : string) : Sql unit :=
  fun f => (tt, match tables f !! table with
                | Some _ => f
                | None => {| user_version := user_version f;
                             tables := <[table := []]> (tables f) |}
                end,
            [CreateTableIfNotExists table]).

Fixpoint for_each {A} (body : A -> Sql unit) (l : list A) : Sql unit :=
  match l with
  | [] => ret tt
  | x :: t => bind (body x) (fun _ => for_each body t)
  end.

(** [db.drop_tables(models, safe=True)]: the tables are dropped in the
    reverse of the order they are created in. *)
Definition drop_tables_safe (models : list string) : Sql unit :=
  for_each drop_table_if_exists (rev models).

(** [db.create_tables(models, safe=True)] *)
Definition create_tables_safe (models : list string) : Sql unit :=
  for_each create_table_if_not_exists models.

End Sqlite.

(** ** Database *)

Module Database.

Import Sqlite.

(** Database user schema version, bump to recreate the database. *)
Definition SCHEMA_VERSION : Z := 5.

(** The model classes [create_database] manages, by class name. *)
Definition managed_tables : list string :=
  [ "Account"; "ExpectedIncome"; "GlobalRank"; "HardwarePreset"; "Income";
    "KnownHosts"; "LocalRank"; "NeighbourLocRank"; "Payment";
    "ReceivedPayment"; "Stats"; "TaskPreset" ].

(** [Database._get_user_version] *)
Definition _get_user_version : Sql Z := pragma_user_version.

(** [Database._set_user_version] *)
Definition _set_user_version (version : Z) : Sql unit :=
  pragma_set_user_version version.

(** [Database.create_database], for the value [schema_version] of the
    class attribute [Database.SCHEMA_VERSION]. *)
Definition create_database_at (schema_version : Z) : Sql unit :=
  bind _get_user_version (fun version =>
  bind (if negb (Z.eqb version schema_version) then
          bind (drop_tables_safe managed_tables) (fun _ =>
          _set_user_version schema_version)
        else ret tt) (fun _ =>
  create_tables_safe managed_tables)).

Definition create_database : Sql unit := create_database_at SCHEMA_VERSION.

(** The peewee handle [db], one object shared by the whole module:
    [database] is the file it was initialised with ([None] while
    deferred), [conn] the connection it holds ([None] while closed) and
    [opened] the number of connections it has created so far. *)
Record handle : Type := {
  database : option string;
  conn : option nat;
  opened : nat
}.

(** [db = SqliteDatabase(None, ...)] *)
Definition deferred_handle : handle :=
  {| database := None; conn := None; opened := 0 |}.

Definition is_closed (h : handle) : bool :=
  match conn h with
  | Some _ => false
  | None => true
  end.

(** The two points on which releases of the driver differ when the
    handle is already open: whether [init] closes the connection first,
    and whether [connect] refuses with [OperationalError] or replaces
    the connection. *)
Record driver : Type := {
  init_closes : bool;
  connect_refuses : bool
}.

(** The process state: the shared handle and the files on disk. *)
Record world : Type := {
  db : handle;
  files : gmap string file
}.

(** [db.close()] *)
Definition db_close (h : handle) : handle :=
  {| database := database h; conn := None; opened := opened h |}.

(** [db.init(database)] *)
Definition db_init (drv : driver) (path : string) (h : handle) : handle :=
  let h' := if init_closes drv && negb (is_closed h) then db_close h else h in
  {| database := Some path; conn := conn h'; opened := opened h' |}.

(** [db.connect()]: a new connection to the file of the handle, which
    SQLite creates when it is not there. *)
Definition db_connect (drv : driver) (w : world) : result world :=
  match database (db w) with
  | None => Raise OperationalError
  | Some path =>
      if connect_refuses drv && negb (is_closed (db w)) then
        Raise OperationalError
      else
        Ok {| db := {| database := Some path;
                       conn := Some (S (opened (db w)));
                       opened := S (opened (db w)) |};
              files := match files w !! path with
                       | Some _ => files w
                       | None => <[path := empty_file]> (files w)
                       end |}
  end.

(** Statements issued through the handle run on its file. *)
Definition on_file {A} (m : Sql A) (w : world)
  : result (A * world * list statement) :=
  match database (db w) with
  | None => Raise OperationalError
  | Some path =>
      match files w !! path with
      | None => Raise OperationalError
      | Some f =>
          let '(a, f', l) := m f in
          Ok (a, {| db := db w; files := <[path := f']> (files w) |}, l)
      end
  end.

Fixpoint ends_with_slash (s : string) : bool :=
  match s with
  | EmptyString => false
  | String c EmptyString => Ascii.eqb c "/"
  | String _ t => ends_with_slash t
  end.

(** [os.path.join(datadir, 'golem.db')]: an empty directory name gives
    the bare file name, and no separator is added after a directory
    name that ends with one. *)
Definition db_path (datadir : string) : string :=
  match datadir with
  | EmptyString => "golem.db"
  | _ => if ends_with_slash datadir then datadir ++ "golem.db"
         else datadir ++ "/golem.db"
  end.

(** A [Database] object: its only attribute [self.db] is the shared
    handle, so the object carries no state of its own. *)
Inductive database_object : Type := SharedHandle.

(** [Database.__init__] *)
Definition __init__ (drv : driver) (datadir : string) (w : world)
  : result (database_object * world) :=
  let w1 := {| db := db_init drv (db_path datadir) (db w); files := files w |} in
  w2 <- db_connect drv w1 ;;
  r <- on_file create_database w2 ;;
  Ok (SharedHandle, snd (fst r)).

(** Opening again gave back the connection that was already open: the
    call returned, the handle holds the same connection and created no
    new one. *)
Definition reuses_open_handle (drv : driver) (datadir : string) (w : world)
  : Prop :=
  exists w', __init__ drv datadir w = Ok (SharedHandle, w')
             /\ conn (db w') = conn (db w)
             /\ opened (db w') = opened (db w).

(** [Database.close] *)
Definition close (w : world) : world :=
  if negb (is_closed (db w)) then
    {| db := db_close (db w); files := files w |}
  else w.

End Database.

(** ** Sample states *)

Module Samples.

Import Sqlite Database.

(** A file left at version 5 with one payment stored. *)
Definition populated_file : file :=
  {| user_version := 5;
     tables := {[ "Payment" := [ ({[ "subtask" := VStr "T1000" ]} : row) ] ]} |}.

(** A file left at the last version the marker can hold. *)
Definition last_version_file : file :=
  {| user_version := 2 ^ 31 - 1;
     tables := {[ "Payment" := [ ({[ "subtask" := VStr "T1000" ]} : row) ] ]} |}.

(** A file with a table that is not one of the managed ones. *)
Definition annotated_file : file :=
  {| user_version := 4;
     tables := {[ "Notes" := [ ({[ "text" := VStr "keep me" ]} : row) ];
                  "Payment" := [ ({[ "subtask" := VStr "T1000" ]} : row) ] ]} |}.

(** A process whose handle is open on [/data/golem.db]. *)
Definition open_world : world :=
  {| db := {| database := Some "/data/golem.db"; conn := Some 1%nat;
              opened := 1 |};
     files := {[ "/data/golem.db" := populated_file ]} |}.

Definition driver_of (closes refuses : bool) : driver :=
  {| init_closes := closes; connect_refuses := refuses |}.

End Samples.

(** ** Model instances *)

Module Model.

(** The time source behind [datetime.datetime.now]: the readings it
    will give, and how many were taken. *)
Record clock : Type := {
  ticks : nat -> Z;
  reads : nat
}.

(** [datetime.datetime.now()] *)
Definition now (c : clock) : pyval * clock :=
  (VDatetime (ticks c (reads c)), {| ticks := ticks c; reads := S (reads c) |}).

(** The [default=] of a field declaration. *)
Inductive default_spec : Type :=
| NoDefault
| DefaultValue (v : pyval)
| DefaultNow.

Record field : Type := {
  field_name : string;
  field_default : default_spec
}.

(** The primary key of a model class: one field, or a [CompositeKey]. *)
Inductive pk_spec : Type :=
| SinglePk (name : string)
| CompositePk (names : list string).

Record model_class : Type := {
  fields : list field;
  primary_key : pk_spec
}.

(** A model instance: the field values in [_data], the names of the
    fields set since the last save in [_dirty], and the attributes that
    are not fields in [__dict__]. *)
Record instance : Type := {
  _data : gmap string pyval;
  _dirty : gset string;
  __dict__ : gmap string pyval
}.

Definition is_field (M : model_class) (name : string) : bool :=
  existsb (fun f => String.eqb (field_name f) name) (fields M).

(** Reading a field attribute: [instance._data.get(name)]. *)
Definition get_field (name : string) (self : instance) : pyval :=
  default VNone (_data self !! name).

(** [setattr(self, name, value)]: a field goes to [_data] and is marked
    dirty, any other name is a plain attribute. *)
Definition setattr (M : model_class) (name : string) (value : pyval)
           (self : instance) : instance :=
  if is_field M name then
    {| _data := <[name := value]> (_data self);
       _dirty := {[name]} ∪ _dirty self;
       __dict__ := __dict__ self |}
  else
    {| _data := _data self;
       _dirty := _dirty self;
       __dict__ := <[name := value]> (__dict__ self) |}.

(** [Meta.get_default_dict()]: the constant defaults, then the callable
    ones, each called once, in field order. *)
Fixpoint constant_defaults (fs : list field) : gmap string pyval :=
  match fs with
  | [] => ∅
  | f :: t =>
      match field_default f with
      | DefaultValue v => <[field_name f := v]> (constant_defaults t)
      | _ => constant_defaults t
      end
  end.

Fixpoint callable_defaults (fs : list field) (dd : gmap string pyval)
         (c : clock) : gmap string pyval * clock :=
  match fs with
  | [] => (dd, c)
  | f :: t =>
      match field_default f with
      | DefaultNow =>
          let (v, c') := now c in
          callable_defaults t (<[field_name f := v]> dd) c'
      | _ => callable_defaults t dd c
      end
  end.

Definition get_default_dict (M : model_class) (c : clock)
  : gmap string pyval * clock :=
  callable_defaults (fields M) (constant_defaults (fields M)) c.

(** [Model.__init__], called with keyword arguments [kwargs]. *)
Definition __init__ (M : model_class) (kwargs : list (string * pyval))
           (c : clock) : instance * clock :=
  let (dd, c') := get_default_dict M c in
  (fold_left (fun self kv => setattr M (fst kv) (snd kv) self) kwargs
     {| _data := dd; _dirty := dom dd; __dict__ := ∅ |},
   c').

(** Rows of the table of a model class, each with its rowid. *)
Definition table : Type := list (Z * gmap string pyval).












End Model.

(** ** BaseModel and Payment *)

Module BaseModel.

Import Model.

(** The two fields every [BaseModel] subclass inherits. *)
Definition base_fields : list field :=
  [ {| field_name := "created_date"; field_default := DefaultNow |};
    {| field_name := "modified_date"; field_default := DefaultNow |} ].

(** A subclass of [BaseModel]: its own fields come after the inherited
    ones. *)
Definition subclass (own : list field) (pk : pk_spec) : model_class :=
  {| fields := (base_fields ++ own)%list; primary_key := pk |}.

End BaseModel.

Module Payment.

Import Model.

Definition own_fields : list field :=
  [ {| field_name := "subtask"; field_default := NoDefault |};
    {| field_name := "status";
       field_default := DefaultValue (VEnum "PaymentStatus" "awaiting" 1) |};
    {| field_name := "payee"; field_default := NoDefault |};
    {| field_name := "value"; field_default := NoDefault |};
    {| field_name := "details"; field_default := NoDefault |} ].

Definition Payment : model_class :=
  BaseModel.subclass own_fields (SinglePk "subtask").

(** [Payment.__init__]: for convenience always have [.details] as a
    dictionary. *)
Definition __init__ (kwargs : list (string * pyval)) (c : clock)
  : instance * clock :=
  let (self, c') := Model.__init__ Payment kwargs c in
  (match get_field "details" self with
   | VNone => setattr Payment "details" (VDict []) self
   | _ => self
   end, c').

End Payment.

Module ModelSamples.

Import Model.

(** A clock whose n-th reading is n. *)
Definition counting_clock : clock :=
  {| ticks := Z.of_nat; reads := 0 |}.

(** Keyword arguments of a payment constructed without details. *)
Definition bare_payment : list (string * pyval) :=
  [ ("subtask", VStr "T1000"); ("value", VInt (2 ^ 70)); ("details", VNone) ].


End ModelSamples.

(** ** Base64 text *)

Module Base64.

Local Open Scope N_scope.

(** The character of a six-bit value in the standard alphabet. *)
Definition b64_char (n : N) : ascii :=
  if n <? 26 then ascii_of_N (65 + n)
  else if n <? 52 then ascii_of_N (71 + n)
  else if n <? 62 then ascii_of_N (n - 4)
  else if n =? 62 then "+"%char
  else "/"%char.

Definition b64_val (c : ascii) : option N :=
  let n := N_of_ascii c in
  if (65 <=? n) && (n <=? 90) then Some (n - 65)
  else if (97 <=? n) && (n <=? 122) then Some (n - 71)
  else if (48 <=? n) && (n <=? 57) then Some (n + 4)
  else if n =? 43 then Some 62
  else if n =? 47 then Some 63
  else None.

Definition is_pad (c : ascii) : bool := Ascii.eqb c "=".

Definition byte_of (n : N) : byte := RawCharField.byte_of_N n.

(** [base64.b64encode]: three bytes give four characters, and a last
    group of one or two bytes is padded with [=]. *)
Fixpoint b64encode (b : list byte) : string :=
  match b with
  | [] => EmptyString
  | [x] =>
      let n := Byte.to_N x in
      String (b64_char (n / 4))
        (String (b64_char (n mod 4 * 16)) (String "=" (String "=" EmptyString)))
  | [x; y] =>
      let n := Byte.to_N x in
      let m := Byte.to_N y in
      String (b64_char (n / 4))
        (String (b64_char (n mod 4 * 16 + m / 16))
           (String (b64_char (m mod 16 * 4)) (String "=" EmptyString)))
  | x :: y :: z :: t =>
      let n := Byte.to_N x in
      let m := Byte.to_N y in
      let o := Byte.to_N z in
      String (b64_char (n / 4))
        (String (b64_char (n mod 4 * 16 + m / 16))
           (String (b64_char (m mod 16 * 4 + o / 64))
              (String (b64_char (o mod 64)) (b64encode t))))
  end.

(** [base64.b64decode] on text made of whole groups of four characters
    of the alphabet, the last one possibly padded.  [None]: any other
    text. *)
Fixpoint b64decode (s : string) : option (list byte) :=
  match s with
  | EmptyString => Some []
  | String a (String b (String c (String d t))) =>
      match b64_val a, b64_val b with
      | Some x1, Some x2 =>
          let b1 := byte_of (x1 * 4 + x2 / 16) in
          if is_pad c then
            if is_pad d then
              match t with
              | EmptyString => Some [b1]
              | _ => None
              end
            else None
          else
            match b64_val c with
            | Some x3 =>
                let b2 := byte_of (x2 mod 16 * 16 + x3 / 4) in
                if is_pad d then
                  match t with
                  | EmptyString => Some [b1; b2]
                  | _ => None
                  end
                else
                  match b64_val d, b64decode t with
                  | Some x4, Some rest =>
                      Some (b1 :: b2 :: byte_of (x3 mod 4 * 64 + x4) :: rest)
                  | _, _ => None
                  end
            | None => None
            end
      | _, _ => None
      end
  | _ => None
  end.

End Base64.

(** ** JsonField *)

Module JsonField.

(** A JSON document.  The column holds its text; the text is written
    and read by the [json] backend of jsonpickle, and the model keeps
    the document the text spells, the members of an object in the order
    the text has them.  [JFloat bits] is a number written with a
    fraction or an exponent, or one of [NaN], [Infinity], [-Infinity],
    as the double it reads as. *)
Inductive json : Type :=
| JNull
| JBool (b : bool)
| JInt (z : Z)
| JFloat (bits : Z)
| JStr (s : string)
| JArr (items : list json)
| JObj (members : list (string * json)).

(** Decimal digits of [n] in front of [acc], one digit per unit of fuel. *)
Fixpoint dec_digits (fuel : nat) (n : N) (acc : string) : string :=
  match fuel with
  | O => acc
  | S f =>
      let acc' := String (ascii_of_N (48 + n mod 10)) acc in
      if (n / 10 =? 0)%N then acc' else dec_digits f (n / 10)%N acc'
  end.

(** [repr(z)] for an integer. *)
Definition repr_int (z : Z) : string :=
  let digits := dec_digits (S (N.to_nat (N.log2 (Z.abs_N z)))) (Z.abs_N z) "" in
  if (z <? 0)%Z then String "-" digits else digits.

(** The member name a dictionary key becomes, with [keys=False] as
    [JsonField] calls [dumps]: text stays, [None] becomes ["null"], any
    other key becomes its [repr].  [None] here: a key whose [repr] is
    not modelled. *)
Definition key_text (k : pyval) : option string :=
  match k with
  | VStr s => Some s
  | VNone => Some "null"
  | VInt z => Some (repr_int z)
  | VBool b => Some (if b then "True" else "False")
  | _ => None
  end.

(** [data[k] = v] on the entries collected so far: a name that is there
    keeps its place and takes the new value. *)
Fixpoint dict_set {A} (k : string) (v : A) (data : list (string * A))
  : list (string * A) :=
  match data with
  | [] => [(k, v)]
  | (k', v') :: t =>
      if String.eqb k' k then (k, v) :: t else (k', v') :: dict_set k v t
  end.

(** [tags.RESERVED]: the names the pickler refuses as dictionary keys. *)
Definition RESERVED : list string :=
  [ "py/bytes"; "py/function"; "py/id"; "py/initargs"; "py/iterator";
    "py/newargs"; "py/newargsex"; "py/newobj"; "py/object"; "py/property";
    "py/reduce"; "py/ref"; "py/repr"; "py/seq"; "py/set"; "py/state";
    "py/tuple"; "py/type" ].

(** [not util.is_picklable(k, v)], for the values here: the key is one
    of [tags.RESERVED]. *)
Definition not_picklable (k : pyval) : bool :=
  match k with
  | VStr s => existsb (String.eqb s) RESERVED
  | _ => false
  end.

(** The names jsonpickle gives a meaning of its own, as tags: the
    reserved ones and the two tags of encoded bytes. *)
Definition reserved (k : string) : bool :=
  existsb (String.eqb k) ("py/b64" :: "py/b85" :: RESERVED).

(** The members of an object in the order the text has them, sorted by
    name. *)
Fixpoint insert_member {A} (m : string * A) (l : list (string * A))
  : list (string * A) :=
  match l with
  | [] => [m]
  | h :: t =>
      if String.ltb (fst m) (fst h) then m :: l else h :: insert_member m t
  end.

Definition sort_members {A} (l : list (string * A)) : list (string * A) :=
  fold_right insert_member [] l.

(** The pickler and the text of its result: a Python value to a
    document.  Scalars stay, bytes are an object tagged [py/b64] with
    their base64 text, a list is an array, a tuple is an object tagged
    [py/tuple], a dictionary is an object; an entry whose key is a
    reserved name is left out.  A value here is a tree: every list in
    it is an object of its own (the pickler writes a reference for a
    list object it meets a second time).  [None] here: a value (a class
    instance) whose pickling is not modelled. *)
Fixpoint flatten (v : pyval) : option json :=
  match v with
  | VNone => Some JNull
  | VBool b => Some (JBool b)
  | VInt z => Some (JInt z)
  | VFloat bits => Some (JFloat bits)
  | VStr s => Some (JStr s)
  | VBytes b => Some (JObj [("py/b64", JStr (Base64.b64encode b))])
  | VList l =>
      option_map JArr
        ((fix items (l : list pyval) : option (list json) :=
            match l with
            | [] => Some []
            | x :: t =>
                match flatten x, items t with
                | Some j, Some js => Some (j :: js)
                | _, _ => None
                end
            end) l)
  | VTuple l =>
      option_map (fun js => JObj [("py/tuple", JArr js)])
        ((fix items (l : list pyval) : option (list json) :=
            match l with
            | [] => Some []
            | x :: t =>
                match flatten x, items t with
                | Some j, Some js => Some (j :: js)
                | _, _ => None
                end
            end) l)
  | VDict d =>
      option_map (fun data => JObj (sort_members data))
        ((fix pairs (d : list (pyval * pyval)) (data : list (string * json))
            : option (list (string * json)) :=
            match d with
            | [] => Some data
            | (k, x) :: t =>
                if not_picklable k then pairs t data
                else
                  match key_text k, flatten x with
                  | Some name, Some j => pairs t (dict_set name j data)
                  | _, _ => None
                  end
            end) d [])
  | _ => None
  end.

Fixpoint find_member (name : string) (members : list (string * pyval))
  : option pyval :=
  match members with
  | [] => None
  | (k, v) :: t => if String.eqb k name then Some v else find_member name t
  end.

(** The dictionary [json.loads] builds from the members of an object:
    of two members with one name the later value stays. *)
Definition loaded (members : list (string * pyval)) : list (string * pyval) :=
  fold_left (fun data m => dict_set (fst m) (snd m) data) members [].

Definition text_entry (m : string * pyval) : pyval * pyval :=
  (VStr (fst m), snd m).

(** The unpickler: an array is a list; an object that has the [py/b64]
    member is the bytes its text decodes to; one that has the
    [py/tuple] member is the tuple of the items of that member; an
    object without tag names is a dictionary with text keys.  [None]
    here: an object with another tag name, whose restoring is not
    modelled. *)
Fixpoint restore (j : json) : option pyval :=
  match j with
  | JNull => Some VNone
  | JBool b => Some (VBool b)
  | JInt z => Some (VInt z)
  | JFloat bits => Some (VFloat bits)
  | JStr s => Some (VStr s)
  | JArr l =>
      option_map VList
        ((fix items (l : list json) : option (list pyval) :=
            match l with
            | [] => Some []
            | x :: t =>
                match restore x, items t with
                | Some v, Some vs => Some (v :: vs)
                | _, _ => None
                end
            end) l)
  | JObj members =>
      match
        (fix pairs (m : list (string * json))
           : option (list (string * pyval)) :=
           match m with
           | [] => Some []
           | (k, x) :: t =>
               match restore x, pairs t with
               | Some v, Some vs => Some ((k, v) :: vs)
               | _, _ => None
               end
           end) members
      with
      | Some restored =>
          let data := loaded restored in
          if existsb (fun m => reserved (fst m)) data then
            match find_member "py/b64" data with
            | Some (VStr text) => option_map VBytes (Base64.b64decode text)
            | Some _ => None
            | None =>
                match find_member "py/tuple" data with
                | Some (VList l) => Some (VTuple l)
                | _ => None
                end
            end
          else Some (VDict (map text_entry data))
      | None => None
      end
  end.

(** The loops inside [flatten] and [restore], by name. *)
Fixpoint flatten_items (l : list pyval) : option (list json) :=
  match l with
  | [] => Some []
  | x :: t =>
      match flatten x, flatten_items t with
      | Some j, Some js => Some (j :: js)
      | _, _ => None
      end
  end.

Fixpoint flatten_pairs (d : list (pyval * pyval)) (data : list (string * json))
  : option (list (string * json)) :=
  match d with
  | [] => Some data
  | (k, x) :: t =>
      if not_picklable k then flatten_pairs t data
      else
        match key_text k, flatten x with
        | Some name, Some j => flatten_pairs t (dict_set name j data)
        | _, _ => None
        end
  end.

Fixpoint restore_items (l : list json) : option (list pyval) :=
  match l with
  | [] => Some []
  | x :: t =>
      match restore x, restore_items t with
      | Some v, Some vs => Some (v :: vs)
      | _, _ => None
      end
  end.

Fixpoint restore_pairs (m : list (string * json))
  : option (list (string * pyval)) :=
  match m with
  | [] => Some []
  | (k, x) :: t =>
      match restore x, restore_pairs t with
      | Some v, Some vs => Some ((k, v) :: vs)
      | _, _ => None
      end
  end.

(** [JsonField.db_value]: [json.dumps(value)] *)
Definition db_value (value : pyval) : option json := flatten value.

(** [JsonField.python_value]: [json.loads(value)] *)
Definition python_value (value : json) : option pyval := restore value.

(** A double, as its 64 bits, is a NaN: the exponent is all ones and
    the fraction is not zero. *)
Definition is_nan (bits : Z) : bool :=
  ((bits / 2 ^ 52) mod 2 ^ 11 =? 2047)%Z && negb (bits mod 2 ^ 52 =? 0)%Z.

(** Two values that Python's [==] holds equal: the same scalar (a NaN
    equals nothing), lists and tuples of equal items, dictionaries with
    the same keys and equal values whatever the order of the entries. *)
Inductive same_value : pyval -> pyval -> Prop :=
| same_none : same_value VNone VNone
| same_bool b : same_value (VBool b) (VBool b)
| same_int z : same_value (VInt z) (VInt z)
| same_float bits : is_nan bits = false -> same_value (VFloat bits) (VFloat bits)
| same_str s : same_value (VStr s) (VStr s)
| same_bytes b : same_value (VBytes b) (VBytes b)
| same_list l l' : Forall2 same_value l l' -> same_value (VList l) (VList l')
| same_tuple l l' : Forall2 same_value l l' -> same_value (VTuple l) (VTuple l')
| same_dict d d' e :
    Permutation e d' ->
    Forall2 (fun kv kv' => fst kv = fst kv' /\ same_value (snd kv) (snd kv')) d e ->
    same_value (VDict d) (VDict d').

(** The text keys of a dictionary; [None] when a key is not text. *)
Fixpoint text_keys (d : list (pyval * pyval)) : option (list string) :=
  match d with
  | [] => Some []
  | (VStr k, _) :: t => option_map (cons k) (text_keys t)
  | _ :: t => None
  end.

Fixpoint distinct (l : list string) : bool :=
  match l with
  | [] => true
  | x :: t => negb (existsb (String.eqb x) t) && distinct t
  end.

(** Values built from [None], booleans, integers, floats other than
    NaN, text, bytes, lists, tuples and dictionaries whose keys are
    distinct texts, none of them a tag name. *)
Fixpoint text_keyed (v : pyval) : bool :=
  match v with
  | VNone | VBool _ | VInt _ | VStr _ | VBytes _ => true
  | VFloat bits => negb (is_nan bits)
  | VList l | VTuple l => forallb text_keyed l
  | VDict d =>
      match text_keys d with
      | Some ks => distinct ks && negb (existsb reserved ks)
      | None => false
      end
      && forallb (fun kv => text_keyed (snd kv)) d
  | _ => false
  end.

(** The member [m] of a document restores to a value equal to that of
    the dictionary entry [kv], under the text of its key. *)
Definition restores_to (m : string * json) (kv : pyval * pyval) : Prop :=
  fst kv = VStr (fst m)
  /\ exists y, restore (snd m) = Some y /\ same_value y (snd kv).

(** The restored member [y] equals the dictionary entry [kv]. *)
Definition entry_of (y : string * pyval) (kv : pyval * pyval) : Prop :=
  fst kv = VStr (fst y) /\ same_value (snd y) (snd kv).

(** A value pickles to a document that restores to an equal value. *)
Definition round_trips (v : pyval) : Prop :=
  text_keyed v = true ->
  exists j y, flatten v = Some j /\ restore j = Some y /\ same_value y v.

End JsonField.

Module JsonSamples.

(** [{1: "a"}] *)
Definition int_keyed : pyval := VDict [(VInt 1, VStr "a")].

(** [{"py/tuple": [1, 2]}] *)
Definition tag_keyed : pyval :=
  VDict [(VStr "py/tuple", VList [VInt 1; VInt 2])].

(** [float('nan')] *)
Definition nan : pyval := VFloat 9221120237041090560.

(** [{"tx": "0xabc", "block_number": 42, "fees": [1, (2, None)],
     "node_info": {}, "rate": 0.5, "raw": b"\x00\xff"}] *)
Definition details : pyval :=
  VDict [ (VStr "tx", VStr "0xabc"); (VStr "block_number", VInt 42);
          (VStr "fees", VList [VInt 1; VTuple [VInt 2; VNone]]);
          (VStr "node_info", VDict []);
          (VStr "rate", VFloat 4602678819172646912);
          (VStr "raw", VBytes [x00; xff]) ].

End JsonSamples.

(** ** Dictionaries as Python reads them *)

Module Dict.

(** The entry of a dictionary under a text key: only a text key can
    equal a text. *)
Fixpoint lookup (d : list (pyval * pyval)) (key : string) : option pyval :=
  match d with
  | [] => None
  | (VStr k, v) :: t => if String.eqb k key then Some v else lookup t key
  | _ :: t => lookup t key
  end.

(** [d.get(key, default)] *)
Definition get (d : list (pyval * pyval)) (key : string) (default : pyval)
  : pyval :=
  match lookup d key with
  | Some v => v
  | None => default
  end.

End Dict.

(** ** Payment.get_sender_node *)

Module PaymentMethods.

Import Model.

(** [Payment.get_sender_node]: [self.details.get('node_info', None)].
    [None] here: [details] is not a dictionary and has no [get]
    (AttributeError). *)
Definition get_sender_node (self : instance) : option pyval :=
  match get_field "details" self with
  | VDict d => Some (Dict.get d "node_info" VNone)
  | _ => None
  end.

End PaymentMethods.

(** ** HardwarePreset *)

Module HardwarePreset.

Import Model.

(** The fields of [HardwarePreset]; having no primary key of its own,
    the class gets the automatic [id]. *)
Definition own_fields : list field :=
  [ {| field_name := "id"; field_default := NoDefault |};
    {| field_name := "name"; field_default := NoDefault |};
    {| field_name := "cpu_cores"; field_default := NoDefault |};
    {| field_name := "memory"; field_default := NoDefault |};
    {| field_name := "disk"; field_default := NoDefault |} ].

Definition HardwarePreset : model_class :=
  BaseModel.subclass own_fields (SinglePk "id").

(** [str(value)] for text, [None], integers and booleans; [None] here:
    a value whose [str] is not modelled. *)
Definition str (value : pyval) : option string :=
  match value with
  | VStr s => Some s
  | VNone => Some "None"
  | VInt z => Some (JsonField.repr_int z)
  | VBool b => Some (if b then "True" else "False")
  | _ => None
  end.

(** [HardwarePreset.to_dict] *)
Definition to_dict (self : instance) : option pyval :=
  match str (get_field "name" self) with
  | Some name =>
      Some (VDict [ (VStr "name", VStr name);
                    (VStr "cpu_cores", get_field "cpu_cores" self);
                    (VStr "memory", get_field "memory" self);
                    (VStr "disk", get_field "disk" self) ])
  | None => None
  end.

(** The outcome of [apply]: it returned, or a subscript raised
    [KeyError] for the key given. *)
Inductive outcome : Type :=
| Returned
| KeyError (key : string).

(** [HardwarePreset.apply]: three assignments in a row, each from a
    subscript of [dictionary]; the instance is given as it stands when
    the method returns or raises. *)
Definition apply (dictionary : list (pyval * pyval)) (self : instance)
  : instance * outcome :=
  match Dict.lookup dictionary "cpu_cores" with
  | None => (self, KeyError "cpu_cores")
  | Some cpu_cores =>
      let self1 := setattr HardwarePreset "cpu_cores" cpu_cores self in
      match Dict.lookup dictionary "memory" with
      | None => (self1, KeyError "memory")
      | Some memory =>
          let self2 := setattr HardwarePreset "memory" memory self1 in
          match Dict.lookup dictionary "disk" with
          | None => (self2, KeyError "disk")
          | Some disk =>
              (setattr HardwarePreset "disk" disk self2, Returned)
          end
      end
  end.

End HardwarePreset.

Module MoreSamples.

Import Model.

(** [{'cpu_cores': 4, 'memory': 8192, 'disk': 100}] *)
Definition resources : list (pyval * pyval) :=
  [ (VStr "cpu_cores", VInt 4); (VStr "memory", VInt 8192);
    (VStr "disk", VInt 100) ].

(** A preset as [HardwarePreset(name='default')] builds it. *)
Definition default_preset : instance :=
  fst (Model.__init__ HardwarePreset.HardwarePreset
         [("name", VStr "default")] ModelSamples.counting_clock).

End MoreSamples.

(** * Properties *)

(** ** Hexadecimal text *)

Section HexFacts.

Import Hex.
Local Open Scope N_scope.

Lemma hex_val_hex_digit (d : N) :
  d < 16 -> hex_val (hex_digit d) = Some d.
Proof.
  intros Hd.
  destruct d as [|p]; [reflexivity|].
  do 4 (destruct p as [p|p|]; try reflexivity); lia.
Qed.

Lemma div16_log2 (n : N) :
  n / 16 <> 0 -> N.log2 (n / 16) = N.log2 n - 4.
Proof.
  intros _. change 16 with (2 ^ 4).
  rewrite <- N.shiftr_div_pow2. apply N.log2_shiftr.
Qed.

Lemma div16_log2_pos (n : N) : n / 16 <> 0 -> 4 <= N.log2 n.
Proof.
  intros Hn.
  assert (16 <= n).
  { destruct (N.lt_ge_cases n 16) as [Hlt|]; [|assumption].
    apply N.div_small in Hlt. contradiction. }
  change 4 with (N.log2 16). now apply N.log2_le_mono.
Qed.

End HexFacts.

(** ** BigIntegerField *)

Section BigIntegerFacts.

Import Hex BigIntegerField.

(** Reading the digits [hex_digits] wrote, in front of any text [rest],
    leaves the reader on [rest] with the number as accumulator. *)
Lemma parse_hex_digits (w : bool) (f : nat) :
  forall (n : N) (b : bool) (rest : string),
    (N.to_nat (N.log2 n) <= f)%nat ->
    parse_hex w b 0%N (hex_digits (S f) n rest) = parse_hex w false n rest.
Proof.
  induction f as [|f IH]; intros n b rest Hf.
  - assert (Hlog : N.log2 n = 0%N) by lia.
    assert (Hn : (n < 16)%N).
    { destruct (N.eq_dec n 0%N) as [->|Hn0]; [reflexivity|].
      change 16%N with (2 ^ 4)%N. apply N.log2_lt_pow2; lia. }
    cbn [hex_digits].
    rewrite (N.div_small n 16%N Hn), (N.mod_small n 16%N Hn). cbn [N.eqb parse_hex].
    rewrite (hex_val_hex_digit n Hn). f_equal.
  - change (hex_digits (S (S f)) n rest)
      with (if (n / 16 =? 0)%N
            then String (hex_digit (n mod 16)) rest
            else hex_digits (S f) (n / 16) (String (hex_digit (n mod 16)) rest)).
    assert (Hmod : (n mod 16 < 16)%N) by (apply N.mod_lt; discriminate).
    destruct (N.eqb_spec (n / 16)%N 0%N) as [Hz|Hnz].
    + cbn [parse_hex]. rewrite (hex_val_hex_digit _ Hmod). f_equal.
      rewrite (N.div_mod n 16%N) at 2 by discriminate. lia.
    + rewrite IH.
      * cbn [parse_hex]. rewrite (hex_val_hex_digit _ Hmod). f_equal.
        rewrite (N.div_mod n 16%N) at 3 by discriminate. lia.
      * pose proof (div16_log2 n Hnz). pose proof (div16_log2_pos n Hnz). lia.
Qed.

Lemma parse_to_hex (w : bool) (n : N) :
  parse_hex w true 0%N (to_hex n) = Some n.
Proof.
  unfold to_hex. rewrite parse_hex_digits by reflexivity. reflexivity.
Qed.

Lemma hex_digits_all_hex (f : nat) :
  forall (n : N) (acc : string),
    all_hex acc = true -> all_hex (hex_digits f n acc) = true.
Proof.
  induction f as [|f IH]; intros n acc Hacc; [exact Hacc|].
  cbn [hex_digits].
  assert (Hd : all_hex (String (hex_digit (n mod 16)) acc) = true).
  { cbn [all_hex]. rewrite Hacc, andb_true_r.
    rewrite hex_val_hex_digit by (apply N.mod_lt; discriminate).
    reflexivity. }
  destruct (n / 16 =? 0)%N; [exact Hd|]. now apply IH.
Qed.

Lemma hex_digits_nonempty (f : nat) (n : N) (acc : string) :
  hex_digits (S f) n acc <> EmptyString.
Proof.
  revert n acc. induction f as [|f IH]; intros n acc.
  - cbn. destruct (n / 16 =? 0)%N; discriminate.
  - change (hex_digits (S (S f)) n acc)
      with (if (n / 16 =? 0)%N
            then String (hex_digit (n mod 16)) acc
            else hex_digits (S f) (n / 16) (String (hex_digit (n mod 16)) acc)).
    destruct (n / 16 =? 0)%N; [discriminate|apply IH].
Qed.

(** A hexadecimal digit is neither white space, nor a sign, nor the
    [x] of a prefix. *)
Lemma hex_char_plain (c : ascii) :
  is_Some (hex_val c) ->
  is_space true c = false /\ c <> "-"%char /\ c <> "+"%char
  /\ Ascii.eqb c "x" || Ascii.eqb c "X" = false.
Proof.
  destruct c as [[] [] [] [] [] [] [] []]; vm_compute;
    intros [d Hd]; try discriminate Hd; repeat split; discriminate.
Qed.

Lemma to_hex_shape (n : N) :
  exists c t, to_hex n = String c t /\ is_Some (hex_val c)
              /\ all_hex (to_hex n) = true.
Proof.
  assert (Hall : all_hex (to_hex n) = true)
    by (apply hex_digits_all_hex; reflexivity).
  destruct (to_hex n) as [|c t] eqn:E.
  - exfalso. revert E. apply hex_digits_nonempty.
  - exists c, t. split; [reflexivity|]. split; [|exact Hall].
    cbn [all_hex] in Hall. apply andb_true_iff in Hall as [Hc _].
    now apply bool_decide_eq_true in Hc.
Qed.

Lemma skip_prefix_all_hex (s : string) :
  all_hex s = true -> skip_prefix s = s.
Proof.
  destruct s as [|c [|x t]];
    [reflexivity
    |intros _; destruct c as [[] [] [] [] [] [] [] []]; reflexivity|].
  cbn [all_hex]. intros H.
  apply andb_true_iff in H as [_ H]. apply andb_true_iff in H as [Hx _].
  apply bool_decide_eq_true in Hx.
  destruct (hex_char_plain x Hx) as (_ & _ & _ & Hxx).
  unfold skip_prefix. rewrite Hxx.
  destruct c as [[] [] [] [] [] [] [] []]; reflexivity.
Qed.

Lemma int16_to_hex (n : N) : int16 true (to_hex n) = Ok (Z.of_N n).
Proof.
  destruct (to_hex_shape n) as (c & t & E & Hc & Hall).
  destruct (hex_char_plain c Hc) as (Hsp & Hm & Hp & _).
  unfold int16.
  assert (Hl : lstrip true (to_hex n) = to_hex n)
    by (rewrite E; cbn [lstrip]; now rewrite Hsp).
  rewrite Hl.
  assert (Hs : split_sign (to_hex n) = (false, to_hex n)).
  { rewrite E. unfold split_sign.
    destruct c as [[] [] [] [] [] [] [] []]; try reflexivity; congruence. }
  rewrite Hs, (skip_prefix_all_hex _ Hall), parse_to_hex. reflexivity.
Qed.

Lemma int16_minus_to_hex (n : N) :
  int16 true (String "-" (to_hex n)) = Ok (- Z.of_N n)%Z.
Proof.
  destruct (to_hex_shape n) as (c & t & E & Hc & Hall).
  unfold int16. cbn [lstrip]. change (is_space true "-") with false. cbn iota.
  cbn [split_sign].
  rewrite (skip_prefix_all_hex _ Hall), parse_to_hex. reflexivity.
Qed.

Lemma int16_format_x (z : Z) : int16 true (format_x z) = Ok z.
Proof.
  unfold format_x. destruct (Z.ltb_spec z 0).
  - rewrite int16_minus_to_hex. f_equal. lia.
  - rewrite int16_to_hex. f_equal. lia.
Qed.

(** Decoding what [db_value] stored for an integer gives the integer
    back, whatever its sign and size. *)
Lemma python_value_db_value (z : Z) :
  (s <- db_value (VInt z) ;; python_value (VStr s)) = Ok (VInt z).
Proof.
  cbn [db_value int_of Py.bind python_value]. now rewrite int16_format_x.
Qed.

(** C1: for every non-negative integer [v], without any bound on its
    size (so past 2^63 and up to 2^256 and beyond), decoding the text
    [BigIntegerField.db_value] stores for [v] gives [v] exactly. *)
Theorem C1_biginteger_roundtrip (v : Z) :
  (0 <= v)%Z ->
  exists s, db_value (VInt v) = Ok s /\ python_value (VStr s) = Ok (VInt v).
Proof.
  intros _. exists (format_x v). split; [reflexivity|].
  cbn [python_value Py.bind]. now rewrite int16_format_x.
Qed.

Lemma C1_witness :
  (0 <= 2 ^ 256)%Z /\
  exists s, db_value (VInt (2 ^ 256)) = Ok s
            /\ python_value (VStr s) = Ok (VInt (2 ^ 256)).
Proof.
  split; [lia|]. apply (C1_biginteger_roundtrip (2 ^ 256)). lia.
Defined.

(** C5, as stated, at the empty string: the guard of
    [BigIntegerField.python_value] tests [value is not None] only, so an
    empty stored string reaches [int('', 16)], which raises [ValueError]
    instead of coming back unchanged. *)
Lemma C5_empty_string_raises :
  python_value (VStr "") = Raise ValueError
  /\ python_value (VStr "") <> Ok (VStr "").
Proof. split; [reflexivity|discriminate]. Qed.

(** C5, amended: [BigIntegerField.db_value] raises [TypeError] for every
    value that is not an instance of [int]; decoding a null stored value
    returns it unchanged ([None], absence) without raising; an empty
    string is not taken for absence, decoding it raises [ValueError]. *)
Theorem C5_biginteger_errors (value : pyval) :
  isinstance_int value = false ->
  db_value value = Raise TypeError
  /\ python_value VNone = Ok VNone
  /\ python_value (VStr "") = Raise ValueError.
Proof.
  intros Hv. split; [|split; reflexivity].
  unfold db_value. destruct value; try reflexivity; discriminate Hv.
Qed.

Lemma C5_witness :
  isinstance_int (VStr "ff") = false
  /\ db_value (VStr "ff") = Raise TypeError
  /\ python_value VNone = Ok VNone
  /\ python_value (VStr "") = Raise ValueError.
Proof.
  split; [reflexivity|]. apply (C5_biginteger_errors (VStr "ff")). reflexivity.
Defined.

End BigIntegerFacts.

(** ** RawCharField *)

Section RawCharFacts.

Import Hex RawCharField.

Lemma byte_of_N_nibbles (x : byte) :
  byte_of_N (16 * (Byte.to_N x / 16) + Byte.to_N x mod 16) = x.
Proof.
  rewrite <- N.div_mod by discriminate.
  unfold byte_of_N. now rewrite Byte.of_to_N.
Qed.

Lemma decode_encode_hex (b : list byte) :
  decode_hex (encode_hex_bytes b) = Ok b.
Proof.
  induction b as [|x t IH]; [reflexivity|].
  cbn [encode_hex_bytes decode_hex].
  pose proof (Byte.to_N_bounded x) as Hx.
  rewrite !hex_val_hex_digit.
  - rewrite IH. cbn [Py.bind]. now rewrite byte_of_N_nibbles.
  - apply N.mod_lt. discriminate.
  - apply N.Div0.div_lt_upper_bound. lia.
Qed.

(** Induction on text two characters at a time. *)
Lemma string_pair_ind (P : string -> Prop) :
  P EmptyString ->
  (forall c, P (String c EmptyString)) ->
  (forall hi lo t, P t -> P (String hi (String lo t))) ->
  forall s, P s.
Proof.
  intros H0 H1 H2.
  fix IH 1. intros [|hi [|lo t]]; [exact H0|apply H1|apply H2, IH].
Qed.

Lemma decode_hex_odd (s : string) :
  Nat.odd (String.length s) = true -> decode_hex s = Raise FormatError.
Proof.
  induction s as [| c | hi lo t IH] using string_pair_ind; intros Hodd.
  - discriminate Hodd.
  - reflexivity.
  - cbn [decode_hex]. change (Nat.odd (String.length t) = true) in Hodd.
    rewrite (IH Hodd).
    destruct (hex_val hi), (hex_val lo); reflexivity.
Qed.

Lemma decode_hex_non_hex (s : string) :
  has_non_hex s = true -> decode_hex s = Raise FormatError.
Proof.
  induction s as [| c | hi lo t IH] using string_pair_ind; intros Hbad.
  - discriminate Hbad.
  - reflexivity.
  - cbn [decode_hex]. cbn [has_non_hex] in Hbad.
    destruct (hex_val hi) as [h|]; [|reflexivity].
    destruct (hex_val lo) as [l|]; [|reflexivity].
    rewrite !bool_decide_eq_false_2 in Hbad by discriminate.
    now rewrite (IH Hbad).
Qed.

(** C8: for every byte sequence [b], decoding the text
    [RawCharField.db_value] stores for [b] gives [b] back; decoding a
    text of odd length, or one holding a character that is not a
    hexadecimal digit, fails with [FormatError]. *)
Theorem C8_rawbytes_roundtrip (b : list byte) (s : string) :
  (exists t, db_value (VBytes b) = Ok t /\ python_value t = Ok (VBytes b))
  /\ (Nat.odd (String.length s) = true \/ has_non_hex s = true ->
      python_value s = Raise FormatError).
Proof.
  split.
  - exists (encode_hex_bytes b). split; [reflexivity|].
    unfold python_value. now rewrite decode_encode_hex.
  - unfold python_value. intros [H|H].
    + now rewrite decode_hex_odd.
    + now rewrite decode_hex_non_hex.
Qed.

Lemma C8_witness :
  (exists t, db_value (VBytes [x00; xff; x1a]) = Ok t
             /\ python_value t = Ok (VBytes [x00; xff; x1a]))
  /\ python_value "abc" = Raise FormatError
  /\ python_value "zz" = Raise FormatError.
Proof.
  split; [|split].
  - apply (C8_rawbytes_roundtrip [x00; xff; x1a] "").
  - apply (C8_rawbytes_roundtrip [] "abc"). left. reflexivity.
  - apply (C8_rawbytes_roundtrip [] "zz"). right. reflexivity.
Defined.

End RawCharFacts.

(** ** EnumField *)

Section EnumFacts.

Import EnumField.

Variable E : enum_type.

Lemma isinstance_is_member (value : pyval) :
  isinstance value E = true <-> is_member E value.
Proof.
  split.
  - destruct value; try discriminate. cbn [isinstance].
    intros H. apply andb_true_iff in H as [Hcls Hex].
    apply String.eqb_eq in Hcls. subst cls.
    apply existsb_exists in Hex as ([n z] & Hin & Heq).
    unfold member_eqb in Heq. cbn [fst snd] in Heq.
    apply andb_true_iff in Heq as [Hn Hz].
    apply String.eqb_eq in Hn. apply Z.eqb_eq in Hz. subst.
    exists name, value. split; [reflexivity|assumption].
  - intros (name & v & -> & Hin). cbn [isinstance].
    rewrite String.eqb_refl. cbn [andb].
    apply existsb_exists. exists (name, v). split.
    + assumption.
    + unfold member_eqb. cbn [fst snd].
      now rewrite String.eqb_refl, Z.eqb_refl.
Qed.

(** Looking a value up among members of distinct values finds the member
    that carries it. *)
Lemma find_member (l : list (string * Z)) (name : string) (v : Z) :
  NoDup (map snd l) -> In (name, v) l ->
  List.find (fun m => Z.eqb (snd m) v) l = Some (name, v).
Proof.
  induction l as [|[n z] l IH]; intros Hnd Hin; [destruct Hin|].
  cbn [map snd] in Hnd. apply NoDup_cons in Hnd as [Hz Hnd].
  cbn [List.find snd]. destruct Hin as [Heq|Hin].
  - injection Heq as -> ->. now rewrite Z.eqb_refl.
  - destruct (Z.eqb_spec z v) as [->|Hne].
    + exfalso. apply Hz. apply list_elem_of_In.
      change v with (snd (name, v)). now apply in_map.
    + now apply IH.
Qed.

Lemma find_no_member (l : list (string * Z)) (z : Z) :
  ~ In z (map snd l) -> List.find (fun m => Z.eqb (snd m) z) l = None.
Proof.
  induction l as [|[n v] l IH]; intros Hz; [reflexivity|].
  cbn [List.find snd]. cbn [map snd In] in Hz.
  destruct (Z.eqb_spec v z) as [->|Hne]; [tauto|]. apply IH. tauto.
Qed.

(** C6: for every member [s] of the declared enumeration, decoding what
    [EnumField.db_value] stores for [s] gives [s] back; encoding a value
    that is not a member raises [TypeError]; decoding an integer that no
    member has as its value raises [ValueError], no default stands in. *)
Theorem C6_enum_codec (name : string) (v : Z) (value : pyval) (z : Z) :
  canonical E ->
  (In (name, v) (members E) ->
   exists n, db_value E (VEnum (enum_name E) name v) = Ok n
             /\ python_value E n = Ok (VEnum (enum_name E) name v))
  /\ (~ is_member E value -> db_value E value = Raise TypeError)
  /\ (~ In z (map snd (members E)) -> python_value E z = Raise ValueError).
Proof.
  intros Hcan. split; [|split].
  - intros Hin. exists v. split.
    + unfold db_value.
      assert (Hi : isinstance (VEnum (enum_name E) name v) E = true).
      { apply isinstance_is_member. now exists name, v. }
      now rewrite Hi.
    + unfold python_value, call. now rewrite (find_member _ name v Hcan Hin).
  - intros Hnot. unfold db_value.
    destruct (isinstance value E) eqn:Hi; [|reflexivity].
    exfalso. now apply Hnot, isinstance_is_member.
  - intros Hz. unfold python_value, call. now rewrite find_no_member.
Qed.

End EnumFacts.

Lemma PaymentStatus_canonical : EnumField.canonical PaymentStatus.
Proof.
  unfold EnumField.canonical. cbn.
  repeat apply NoDup_cons_2; try apply NoDup_nil_2;
    rewrite ?not_elem_of_cons; repeat split;
    try discriminate; apply not_elem_of_nil.
Qed.

Lemma C6_witness :
  EnumField.canonical PaymentStatus
  /\ (exists n,
        EnumField.db_value PaymentStatus (VEnum "PaymentStatus" "sent" 2) = Ok n
        /\ EnumField.python_value PaymentStatus n
           = Ok (VEnum "PaymentStatus" "sent" 2))
  /\ EnumField.db_value PaymentStatus (VInt 2) = Raise TypeError
  /\ EnumField.python_value PaymentStatus 4 = Raise ValueError.
Proof.
  split; [exact PaymentStatus_canonical|].
  destruct (C6_enum_codec PaymentStatus "sent" 2%Z (VInt 2) 4%Z
              PaymentStatus_canonical) as (Hrt & Hty & Hval).
  split; [|split].
  - apply Hrt. cbn. tauto.
  - apply Hty. intros (n & v & Heq & _). discriminate Heq.
  - apply Hval. cbn. lia.
Defined.

(** ** The schema-version gate *)

Section SchemaGate.

Import Sqlite Database.

Lemma drop_each_spec (l : list string) :
  forall f : file,
    user_version (file_of (for_each drop_table_if_exists l f)) = user_version f
    /\ ran (for_each drop_table_if_exists l f) = map DropTableIfExists l
    /\ forall t, tables (file_of (for_each drop_table_if_exists l f)) !! t
                 = if decide (t ∈ l) then None else tables f !! t.
Proof.
  induction l as [|x l IH]; intros f.
  - now repeat split.
  - cbn [for_each]. unfold bind at 1 2 3.
    cbn [drop_table_if_exists].
    set (f1 := {| user_version := user_version f;
                  tables := delete x (tables f) |}).
    specialize (IH f1). destruct (for_each drop_table_if_exists l f1)
      as [[[] f2] l2] eqn:E.
    unfold file_of, ran in *. cbn [fst snd] in *.
    destruct IH as (Hv & Hran & Hlook). repeat split.
    + exact Hv.
    + cbn. now rewrite Hran.
    + intros t. rewrite Hlook. subst f1. cbn [tables].
      destruct (decide (t = x)) as [->|Hne].
      * rewrite lookup_delete_eq.
        rewrite (decide_True (P := x ∈ x :: l)) by apply list_elem_of_here.
        now destruct (decide (x ∈ l)).
      * rewrite lookup_delete_ne by congruence.
        destruct (decide (t ∈ l)) as [Hin|Hnin].
        -- rewrite decide_True; [reflexivity|]. now apply list_elem_of_further.
        -- rewrite decide_False; [reflexivity|].
           rewrite elem_of_cons. tauto.
Qed.

Lemma drop_tables_spec (l : list string) (f : file) :
  user_version (file_of (drop_tables_safe l f)) = user_version f
  /\ ran (drop_tables_safe l f) = map DropTableIfExists (rev l)
  /\ forall t, tables (file_of (drop_tables_safe l f)) !! t
               = if decide (t ∈ l) then None else tables f !! t.
Proof.
  unfold drop_tables_safe.
  destruct (drop_each_spec (rev l) f) as (Hv & Hran & Hlook).
  split; [exact Hv|]. split; [exact Hran|].
  intros t. rewrite Hlook.
  destruct (decide (t ∈ rev l)) as [Hin|Hnin];
    destruct (decide (t ∈ l)) as [Hin'|Hnin']; try reflexivity.
  - exfalso. apply Hnin'. apply list_elem_of_In, in_rev.
    now apply list_elem_of_In.
  - exfalso. apply Hnin. apply list_elem_of_In. rewrite <- in_rev.
    now apply list_elem_of_In.
Qed.

Lemma create_table_lookup (x t : string) (f : file) :
  tables (file_of (create_table_if_not_exists x f)) !! t
  = if decide (t = x) then Some (default [] (tables f !! x))
    else tables f !! t.
Proof.
  unfold create_table_if_not_exists, file_of. cbn [fst snd].
  destruct (tables f !! x) as [rows|] eqn:Hx.
  - destruct (decide (t = x)) as [->|]; [exact Hx|reflexivity].
  - cbn [tables]. destruct (decide (t = x)) as [->|Hne].
    + now rewrite lookup_insert_eq.
    + now rewrite lookup_insert_ne by congruence.
Qed.

Lemma create_table_version (x : string) (f : file) :
  user_version (file_of (create_table_if_not_exists x f)) = user_version f.
Proof.
  unfold create_table_if_not_exists, file_of. cbn [fst snd].
  now destruct (tables f !! x).
Qed.

Lemma create_tables_spec (l : list string) :
  forall f : file,
    user_version (file_of (create_tables_safe l f)) = user_version f
    /\ ran (create_tables_safe l f) = map CreateTableIfNotExists l
    /\ forall t, tables (file_of (create_tables_safe l f)) !! t
                 = if decide (t ∈ l) then Some (default [] (tables f !! t))
                   else tables f !! t.
Proof.
  induction l as [|x l IH]; intros f.
  - now repeat split.
  - unfold create_tables_safe in *. cbn [for_each]. unfold bind at 1 2 3.
    pose proof (create_table_lookup x) as Hx.
    pose proof (create_table_version x f) as Hxv.
    destruct (create_table_if_not_exists x f) as [[[] f1] l1] eqn:E1.
    assert (Hl1 : l1 = [CreateTableIfNotExists x])
      by (unfold create_table_if_not_exists in E1; congruence).
    specialize (IH f1).
    destruct (for_each create_table_if_not_exists l f1) as [[[] f2] l2] eqn:E2.
    unfold file_of, ran in *. cbn [fst snd] in *.
    destruct IH as (Hv & Hran & Hlook). repeat split.
    + congruence.
    + subst l1. cbn. now rewrite Hran.
    + intros t. rewrite Hlook.
      specialize (Hx t f). rewrite E1 in Hx. cbn [fst snd] in Hx. rewrite Hx.
      destruct (decide (t = x)) as [->|Hne].
      * rewrite (decide_True (P := x ∈ x :: l)) by apply list_elem_of_here.
        now destruct (decide (x ∈ l)).
      * destruct (decide (t ∈ l)) as [Hin|Hnin].
        -- rewrite decide_True; [reflexivity|]. now apply list_elem_of_further.
        -- rewrite decide_False; [reflexivity|].
           rewrite elem_of_cons. tauto.
Qed.

(** Creating tables that all exist changes nothing in the file. *)
Lemma create_tables_present (l : list string) (f : file) :
  (forall t, t ∈ l -> is_Some (tables f !! t)) ->
  create_tables_safe l f = (tt, f, map CreateTableIfNotExists l).
Proof.
  induction l as [|x l IH]; intros Hall; [reflexivity|].
  unfold create_tables_safe in *. cbn [for_each]. unfold bind.
  assert (Hx : create_table_if_not_exists x f
               = (tt, f, [CreateTableIfNotExists x])).
  { unfold create_table_if_not_exists.
    destruct (Hall x (list_elem_of_here _ _)) as [rows ->]. reflexivity. }
  rewrite Hx, IH; [reflexivity|].
  intros t Ht. apply Hall. now apply list_elem_of_further.
Qed.

Lemma stored_version_int32 (v : Z) : int32 v = true -> stored_version v = v.
Proof. intros H. unfold stored_version. now rewrite H. Qed.

Lemma create_database_mismatch (expected : Z) (f : file) :
  user_version f <> expected ->
  create_database_at expected f
  = (tt,
     file_of (create_tables_safe managed_tables
                {| user_version := stored_version expected;
                   tables := tables (file_of (drop_tables_safe managed_tables f)) |}),
     [PragmaUserVersion]
       ++ map DropTableIfExists (rev managed_tables)
       ++ [PragmaSetUserVersion expected]
       ++ map CreateTableIfNotExists managed_tables)%list.
Proof.
  intros Hne. unfold create_database_at, bind, _get_user_version,
    pragma_user_version, _set_user_version, pragma_set_user_version.
  destruct (Z.eqb_spec (user_version f) expected) as [|_]; [contradiction|].
  cbn [negb].
  destruct (drop_tables_spec managed_tables f) as (_ & Hran & _).
  destruct (drop_tables_safe managed_tables f) as [[[] f1] l1].
  unfold file_of, ran in *. cbn [fst snd] in *. subst l1.
  set (f2 := {| user_version := stored_version expected; tables := tables f1 |}).
  destruct (create_tables_spec managed_tables f2) as (_ & Hran & _).
  destruct (create_tables_safe managed_tables f2) as [[[] f3] l3].
  unfold ran in Hran. cbn [fst snd] in *. subst l3.
  now rewrite <- !app_assoc.
Qed.

Lemma create_database_match (expected : Z) (f : file) :
  user_version f = expected ->
  create_database_at expected f
  = (tt, file_of (create_tables_safe managed_tables f),
     PragmaUserVersion :: map CreateTableIfNotExists managed_tables).
Proof.
  intros Heq. unfold create_database_at, bind, _get_user_version,
    pragma_user_version, ret.
  rewrite Heq, Z.eqb_refl. cbn [negb].
  destruct (create_tables_spec managed_tables f) as (_ & Hran & _).
  destruct (create_tables_safe managed_tables f) as [[[] f1] l1].
  unfold file_of, ran in *. cbn [fst snd] in *. now subst l1.
Qed.

(** The marker after a call that found another version in it. *)
Lemma mismatch_marker (expected : Z) (f : file) :
  user_version f <> expected ->
  user_version (file_of (create_database_at expected f))
  = stored_version expected.
Proof.
  intros Hne. rewrite (create_database_mismatch _ _ Hne).
  unfold file_of at 1. cbn [fst snd].
  match goal with |- context [create_tables_safe _ ?g] =>
    destruct (create_tables_spec managed_tables g) as (Hv & _) end.
  exact Hv.
Qed.

(** After [create_database] every managed table exists. *)
Lemma create_database_tables (expected : Z) (f : file) (t : string) :
  t ∈ managed_tables ->
  is_Some (tables (file_of (create_database_at expected f)) !! t).
Proof.
  intros Ht. destruct (Z.eq_dec (user_version f) expected) as [Heq|Hne].
  - rewrite (create_database_match _ _ Heq). unfold file_of at 1.
    cbn [fst snd].
    destruct (create_tables_spec managed_tables f) as (_ & _ & Hlook).
    rewrite Hlook, decide_True by assumption. eauto.
  - rewrite (create_database_mismatch _ _ Hne). unfold file_of at 1.
    cbn [fst snd].
    match goal with |- context [create_tables_safe _ ?g] =>
      destruct (create_tables_spec managed_tables g) as (_ & _ & Hlook) end.
    rewrite Hlook, decide_True by assumption. eauto.
Qed.

(** After [create_database] with a version the marker can hold, the
    marker reads that version. *)
Lemma create_database_marker (expected : Z) (f : file) :
  int32 expected = true ->
  user_version (file_of (create_database_at expected f)) = expected.
Proof.
  intros Hr. destruct (Z.eq_dec (user_version f) expected) as [Heq|Hne].
  - rewrite (create_database_match _ _ Heq). unfold file_of at 1.
    cbn [fst snd].
    destruct (create_tables_spec managed_tables f) as (Hv & _). congruence.
  - rewrite (mismatch_marker _ _ Hne). now apply stored_version_int32.
Qed.

(** The tables after a call that found another version in the marker. *)
Lemma mismatch_empties (expected : Z) (f : file) (t : string) :
  user_version f <> expected -> t ∈ managed_tables ->
  tables (file_of (create_database_at expected f)) !! t = Some [].
Proof.
  intros Hne Ht. rewrite (create_database_mismatch _ _ Hne).
  unfold file_of at 1. cbn [fst snd].
  match goal with |- context [create_tables_safe _ ?g] =>
    destruct (create_tables_spec managed_tables g) as (_ & _ & Hlook) end.
  rewrite Hlook, decide_True by assumption. cbn [tables].
  destruct (drop_tables_spec managed_tables f) as (_ & _ & Hdrop).
  rewrite Hdrop. now rewrite decide_True by assumption.
Qed.

(** C2, as stated, on a file left at version 2^31 - 1 and reconciled at
    the next version: the marker is a signed 32-bit slot, the write of
    2^31 leaves 0 in it, so the marker does not read the expected
    version afterwards. *)
Lemma C2_marker_is_32_bit :
  user_version Samples.last_version_file = (2 ^ 31 - 1)%Z
  /\ user_version
       (file_of (create_database_at (2 ^ 31) Samples.last_version_file)) = 0%Z
  /\ user_version
       (file_of (create_database_at (2 ^ 31) Samples.last_version_file))
     <> (2 ^ 31)%Z.
Proof.
  assert (Hne : user_version Samples.last_version_file <> (2 ^ 31)%Z)
    by discriminate.
  rewrite (mismatch_marker _ _ Hne).
  split; [reflexivity|]. split; [reflexivity|discriminate].
Qed.

(** C2, amended: for an expected version that the marker can hold (a
    signed 32-bit integer), when the stored marker differs from it,
    [create_database] drops the table of every managed entity, then
    writes the expected version to the marker, then creates all managed
    tables again: each managed table ends with no row and the marker
    reads the expected version (so a file left at version N and
    reconciled at N+1 ends empty with the marker at N+1). *)
Theorem C2_version_mismatch_resets (expected : Z) (f : file) :
  int32 expected = true ->
  user_version f <> expected ->
  (forall t, t ∈ managed_tables ->
             tables (file_of (create_database_at expected f)) !! t = Some [])
  /\ user_version (file_of (create_database_at expected f)) = expected
  /\ ran (create_database_at expected f)
     = ([PragmaUserVersion]
          ++ map DropTableIfExists (rev managed_tables)
          ++ [PragmaSetUserVersion expected]
          ++ map CreateTableIfNotExists managed_tables)%list.
Proof.
  intros Hr Hne. split; [|split].
  - intros t Ht. now apply mismatch_empties.
  - now apply create_database_marker.
  - now rewrite (create_database_mismatch _ _ Hne).
Qed.

(** C3, as stated, with an expected version the marker cannot hold: the
    first call leaves 0 in the marker, so the second call finds a
    mismatch again, drops every managed table and writes the marker a
    second time. *)
Lemma C3_second_call_drops_again :
  ran (create_database_at (2 ^ 31)
         (file_of (create_database_at (2 ^ 31) Samples.populated_file)))
  = ([PragmaUserVersion]
       ++ map DropTableIfExists (rev managed_tables)
       ++ [PragmaSetUserVersion (2 ^ 31)]
       ++ map CreateTableIfNotExists managed_tables)%list
  /\ ran (create_database_at (2 ^ 31)
            (file_of (create_database_at (2 ^ 31) Samples.populated_file)))
     <> PragmaUserVersion :: map CreateTableIfNotExists managed_tables.
Proof.
  assert (Hne : user_version Samples.populated_file <> (2 ^ 31)%Z)
    by discriminate.
  assert (Hne' : user_version
                   (file_of (create_database_at (2 ^ 31) Samples.populated_file))
                 <> (2 ^ 31)%Z).
  { rewrite (mismatch_marker _ _ Hne). discriminate. }
  rewrite (create_database_mismatch _ _ Hne'). unfold ran. cbn [snd].
  split; [reflexivity|discriminate].
Qed.

(** C3, amended: for an expected version that the marker can hold (a
    signed 32-bit integer), of two calls of [create_database] in a row
    with that version only the first can drop tables and write the
    marker; it does when the stored marker differs, and then leaves the
    managed tables empty.  The second call reads the marker and runs
    the safe table creation only: it drops nothing, does not write the
    marker, and leaves the file, rows and marker, as the first call
    left it. *)
Theorem C3_second_call_keeps_file (expected : Z) (f : file) :
  int32 expected = true ->
  ran (create_database_at expected (file_of (create_database_at expected f)))
  = PragmaUserVersion :: map CreateTableIfNotExists managed_tables
  /\ file_of (create_database_at expected
                (file_of (create_database_at expected f)))
     = file_of (create_database_at expected f)
  /\ user_version (file_of (create_database_at expected f)) = expected
  /\ (user_version f <> expected ->
      ran (create_database_at expected f)
      = ([PragmaUserVersion]
           ++ map DropTableIfExists (rev managed_tables)
           ++ [PragmaSetUserVersion expected]
           ++ map CreateTableIfNotExists managed_tables)%list
      /\ forall t, t ∈ managed_tables ->
                   tables (file_of (create_database_at expected f)) !! t
                   = Some []).
Proof.
  intros Hr.
  pose proof (create_database_marker expected f Hr) as Hv.
  rewrite (create_database_match expected _ Hv).
  rewrite (create_tables_present managed_tables
             (file_of (create_database_at expected f))
             (create_database_tables expected f)).
  split; [reflexivity|]. split; [reflexivity|]. split; [exact Hv|].
  intros Hne. split.
  - now rewrite (create_database_mismatch _ _ Hne).
  - intros t Ht. now apply mismatch_empties.
Qed.

End SchemaGate.

Section SchemaGateWitnesses.

Import Sqlite Database Samples.

Lemma C2_witness :
  int32 6 = true
  /\ user_version populated_file <> 6%Z
  /\ (forall t, t ∈ managed_tables ->
                tables (file_of (create_database_at 6 populated_file)) !! t
                = Some [])
  /\ user_version (file_of (create_database_at 6 populated_file)) = 6%Z
  /\ ran (create_database_at 6 populated_file)
     = ([PragmaUserVersion]
          ++ map DropTableIfExists (rev managed_tables)
          ++ [PragmaSetUserVersion 6]
          ++ map CreateTableIfNotExists managed_tables)%list.
Proof.
  split; [reflexivity|]. split; [discriminate|].
  apply (C2_version_mismatch_resets 6 populated_file);
    [reflexivity|discriminate].
Defined.

Lemma C3_witness :
  int32 6 = true
  /\ user_version populated_file <> 6%Z
  /\ ran (create_database_at 6 (file_of (create_database_at 6 populated_file)))
     = PragmaUserVersion :: map CreateTableIfNotExists managed_tables
  /\ file_of (create_database_at 6 (file_of (create_database_at 6 populated_file)))
     = file_of (create_database_at 6 populated_file)
  /\ user_version (file_of (create_database_at 6 populated_file)) = 6%Z
  /\ ran (create_database_at 6 populated_file)
     = ([PragmaUserVersion]
          ++ map DropTableIfExists (rev managed_tables)
          ++ [PragmaSetUserVersion 6]
          ++ map CreateTableIfNotExists managed_tables)%list
  /\ forall t, t ∈ managed_tables ->
               tables (file_of (create_database_at 6 populated_file)) !! t
               = Some [].
Proof.
  assert (Hne : user_version populated_file <> 6%Z) by discriminate.
  destruct (C3_second_call_keeps_file 6 populated_file eq_refl)
    as (H1 & H2 & H3 & H4).
  split; [reflexivity|]. split; [exact Hne|]. split; [exact H1|].
  split; [exact H2|]. split; [exact H3|exact (H4 Hne)].
Defined.

End SchemaGateWitnesses.

(** ** The database handle *)

Section HandleFacts.

Import Sqlite Database Samples.

(** [Database.__init__] on an open handle, case by case on the driver. *)
Lemma init_on_open (drv : driver) (datadir : string) (w : world) :
  is_closed (db w) = false ->
  match __init__ drv datadir w with
  | Raise e =>
      e = OperationalError
      /\ connect_refuses drv = true /\ init_closes drv = false
  | Ok (_, w') =>
      conn (db w') = Some (S (opened (db w)))
      /\ opened (db w') = S (opened (db w))
      /\ database (db w') = Some (db_path datadir)
  end.
Proof.
  destruct w as [[d [c|] o] fs]; [intros _|discriminate].
  destruct drv as [[] []];
    unfold __init__, db_connect, db_init, on_file, is_closed, db_close;
    cbn [db database files conn opened init_closes connect_refuses
         negb andb Py.bind];
    try (now repeat split);
    (destruct (fs !! db_path datadir) as [f|] eqn:Hf;
     [rewrite Hf; destruct (create_database f) as [[[] f'] l]
     |rewrite lookup_insert_eq;
      destruct (create_database empty_file) as [[[] f'] l]];
     cbn [Py.bind fst snd db conn opened database]; now repeat split).
Qed.

Lemma init_never_reuses (drv : driver) (datadir : string) (w : world) :
  is_closed (db w) = false -> ~ reuses_open_handle drv datadir w.
Proof.
  intros Hopen (w' & Hinit & _ & Hsame).
  pose proof (init_on_open drv datadir w Hopen) as H.
  rewrite Hinit in H. destruct H as (_ & Hnew & _). lia.
Qed.

(** C4, as stated, on a handle that is open: whichever way the driver
    treats an open handle, a second [Database.__init__] does not come
    back with the connection that was open. *)
Lemma C4_second_open_reconnects :
  is_closed (db open_world) = false
  /\ ~ reuses_open_handle (driver_of false false) "/data" open_world
  /\ ~ reuses_open_handle (driver_of false true) "/data" open_world
  /\ ~ reuses_open_handle (driver_of true false) "/data" open_world
  /\ ~ reuses_open_handle (driver_of true true) "/data" open_world.
Proof.
  split; [reflexivity|].
  repeat split; apply init_never_reuses; reflexivity.
Qed.

(** C4, amended: [Database.__init__] has no check for a handle that is
    already open; it initialises the shared handle with the path again
    and calls [connect] again.  On an open handle the call therefore
    never keeps the existing connection: it ends with the handle holding
    a newly created connection to the given file, or it raises
    [OperationalError], which happens only with a driver whose [connect]
    refuses an open handle and whose [init] does not close it first. *)
Theorem C4_open_when_open (drv : driver) (datadir : string) (w : world) :
  is_closed (db w) = false ->
  match __init__ drv datadir w with
  | Raise e =>
      e = OperationalError
      /\ connect_refuses drv = true /\ init_closes drv = false
  | Ok (_, w') =>
      conn (db w') = Some (S (opened (db w)))
      /\ opened (db w') = S (opened (db w))
      /\ database (db w') = Some (db_path datadir)
  end.
Proof. exact (init_on_open drv datadir w). Qed.

Lemma C4_witness :
  is_closed (db open_world) = false
  /\ match __init__ (driver_of true true) "/data" open_world with
     | Raise e =>
         e = OperationalError
         /\ connect_refuses (driver_of true true) = true
         /\ init_closes (driver_of true true) = false
     | Ok (_, w') =>
         conn (db w') = Some (S (opened (db open_world)))
         /\ opened (db w') = S (opened (db open_world))
         /\ database (db w') = Some (db_path "/data")
     end.
Proof.
  split; [reflexivity|].
  apply (C4_open_when_open (driver_of true true) "/data" open_world).
  reflexivity.
Defined.

End HandleFacts.

(** ** Model instances: construction and saving *)

Section ModelFacts.

Import Model.

Lemma get_field_setattr_ne (M : model_class) (n name : string)
      (value : pyval) (self : instance) :
  n <> name -> get_field name (setattr M n value self) = get_field name self.
Proof.
  intros Hne. unfold setattr, get_field.
  destruct (is_field M n); cbn [_data]; [|reflexivity].
  now rewrite lookup_insert_ne.
Qed.

Lemma get_field_setattr_eq (M : model_class) (name : string)
      (value : pyval) (self : instance) :
  is_field M name = true ->
  get_field name (setattr M name value self) = value.
Proof.
  intros Hf. unfold setattr, get_field. rewrite Hf. cbn [_data].
  now rewrite lookup_insert_eq.
Qed.



Lemma constant_defaults_other (fs : list field) (name : string) :
  Forall (fun f => field_name f <> name) fs ->
  constant_defaults fs !! name = None.
Proof.
  induction 1 as [|f fs Hf _ IH]; [reflexivity|].
  cbn [constant_defaults]. destruct (field_default f); try exact IH.
  now rewrite lookup_insert_ne.
Qed.


(** Keyword arguments that do not name a field leave it as it was. *)
Lemma kwargs_frame (M : model_class) (name : string)
      (kwargs : list (string * pyval)) :
  (forall v, ~ In (name, v) kwargs) ->
  forall self,
    get_field name
      (fold_left (fun self kv => setattr M (fst kv) (snd kv) self) kwargs self)
    = get_field name self.
Proof.
  induction kwargs as [|[k v] kwargs IH]; intros Hk self; [reflexivity|].
  cbn [fold_left fst snd]. rewrite IH.
  - apply get_field_setattr_ne. intros ->. apply (Hk v). now left.
  - intros v' Hin. apply (Hk v'). now right.
Qed.

End ModelFacts.

Section BaseModelFacts.

Import Model BaseModel.


Lemma init_get_field (M : model_class) (kwargs : list (string * pyval))
      (c : clock) (name : string) :
  (forall v, ~ In (name, v) kwargs) ->
  get_field name (fst (Model.__init__ M kwargs c))
  = default VNone (fst (get_default_dict M c) !! name).
Proof.
  intros Hk. unfold Model.__init__.
  destruct (get_default_dict M c) as [dd c']. cbn [fst].
  now rewrite kwargs_frame.
Qed.



End BaseModelFacts.

Section PaymentFacts.

Import Model Payment.

Lemma payment_details_is_field : is_field Payment "details" = true.
Proof. reflexivity. Qed.

Lemma payment_default_details (c : clock) :
  fst (get_default_dict Payment c) !! "details" = None.
Proof.
  unfold get_default_dict, Payment, BaseModel.subclass. cbn.
  now rewrite !lookup_insert_ne.
Qed.

(** Keyword arguments that give a field no other value than [None]
    leave it [None] when it was. *)
Lemma kwargs_none (M : model_class) (name : string)
      (kwargs : list (string * pyval)) :
  (forall v, In (name, v) kwargs -> v = VNone) ->
  forall self,
    get_field name self = VNone ->
    get_field name
      (fold_left (fun self kv => setattr M (fst kv) (snd kv) self) kwargs self)
    = VNone.
Proof.
  induction kwargs as [|[k v] kwargs IH]; intros Hk self Hself; [exact Hself|].
  cbn [fold_left fst snd]. apply IH.
  - intros v' Hin. apply Hk. now right.
  - destruct (String.eqb_spec k name) as [->|Hne].
    + assert (v = VNone) as -> by (apply Hk; now left).
      unfold setattr, get_field in *.
      destruct (is_field M name); cbn [_data]; [|exact Hself].
      now rewrite lookup_insert_eq.
    + now rewrite get_field_setattr_ne.
Qed.

(** C9: after [Payment.__init__] the [details] of the payment is never
    [None]; a payment constructed with no [details], or with [None] for
    it, has the empty dictionary. *)
Theorem C9_payment_details (kwargs : list (string * pyval)) (c : clock) :
  get_field "details" (fst (Payment.__init__ kwargs c)) <> VNone
  /\ ((forall v, In ("details", v) kwargs -> v = VNone) ->
      get_field "details" (fst (Payment.__init__ kwargs c)) = VDict []).
Proof.
  unfold Payment.__init__.
  destruct (Model.__init__ Payment kwargs c) as [self c'] eqn:E. cbn [fst].
  assert (Hset : get_field "details" (setattr Payment "details" (VDict []) self)
                 = VDict [])
    by (apply get_field_setattr_eq, payment_details_is_field).
  split.
  - destruct (get_field "details" self) eqn:Hd;
      try (rewrite Hd; discriminate).
    rewrite Hset. discriminate.
  - intros Hk.
    assert (Hnone : get_field "details" self = VNone).
    { change self with (fst (self, c')). rewrite <- E.
      unfold Model.__init__.
      pose proof (payment_default_details c) as Hdd.
      destruct (get_default_dict Payment c) as [dd c'']. cbn [fst] in *.
      apply kwargs_none; [exact Hk|].
      unfold get_field. cbn [_data]. now rewrite Hdd. }
    now rewrite Hnone.
Qed.

Lemma C9_witness :
  get_field "details"
    (fst (Payment.__init__ ModelSamples.bare_payment
            ModelSamples.counting_clock)) = VDict [].
Proof.
  apply (C9_payment_details ModelSamples.bare_payment
           ModelSamples.counting_clock).
  intros v [H|[H|[H|[]]]]; try discriminate H. now injection H.
Defined.

End PaymentFacts.

(** ** Base64 text *)

Section Base64Facts.

Import Base64.
Local Open Scope N_scope.

Lemma b64_val_char (n : N) :
  n < 64 -> b64_val (b64_char n) = Some n /\ is_pad (b64_char n) = false.
Proof.
  intros Hn. destruct n as [|p]; [split; reflexivity|].
  do 6 (destruct p as [p|p|]; try (split; reflexivity)); lia.
Qed.

Lemma byte_of_to_N (x : byte) : byte_of (Byte.to_N x) = x.
Proof.
  unfold byte_of, RawCharField.byte_of_N. now rewrite Byte.of_to_N.
Qed.

Lemma sextets (n m o : N) :
  n <= 255 -> m <= 255 -> o <= 255 ->
  n / 4 < 64 /\ n mod 4 * 16 + m / 16 < 64
  /\ m mod 16 * 4 + o / 64 < 64 /\ o mod 64 < 64.
Proof. intros. zify. Z.to_euclidean_division_equations. lia. Qed.

Lemma octet_1 (n m : N) :
  n <= 255 -> m <= 255 -> n / 4 * 4 + (n mod 4 * 16 + m / 16) / 16 = n.
Proof. intros. zify. Z.to_euclidean_division_equations. lia. Qed.

Lemma octet_2 (n m o : N) :
  n <= 255 -> m <= 255 -> o <= 255 ->
  (n mod 4 * 16 + m / 16) mod 16 * 16 + (m mod 16 * 4 + o / 64) / 4 = m.
Proof. intros. zify. Z.to_euclidean_division_equations. lia. Qed.

Lemma octet_3 (m o : N) :
  m <= 255 -> o <= 255 -> (m mod 16 * 4 + o / 64) mod 4 * 64 + o mod 64 = o.
Proof. intros. zify. Z.to_euclidean_division_equations. lia. Qed.

Lemma octets (n m o : N) :
  n <= 255 -> m <= 255 -> o <= 255 ->
  n / 4 * 4 + (n mod 4 * 16 + m / 16) / 16 = n
  /\ (n mod 4 * 16 + m / 16) mod 16 * 16 + (m mod 16 * 4 + o / 64) / 4 = m
  /\ (m mod 16 * 4 + o / 64) mod 4 * 64 + o mod 64 = o.
Proof.
  intros Hn Hm Ho. split; [now apply octet_1|].
  split; [now apply octet_2|now apply octet_3].
Qed.

(** Induction on a list three items at a time. *)
Lemma list_triple_ind {A} (P : list A -> Prop) :
  P [] -> (forall x, P [x]) -> (forall x y, P [x; y]) ->
  (forall x y z t, P t -> P (x :: y :: z :: t)) ->
  forall l, P l.
Proof.
  intros H0 H1 H2 H3. fix IH 1.
  intros [|x [|y [|z t]]]; [exact H0|apply H1|apply H2|apply H3, IH].
Qed.

Lemma b64decode_b64encode (b : list byte) :
  b64decode (b64encode b) = Some b.
Proof.
  induction b as [| x | x y | x y z t IH] using list_triple_ind.
  - reflexivity.
  - pose proof (Byte.to_N_bounded x) as Hx.
    assert (H0 : 0 <= 255) by lia.
    destruct (sextets (Byte.to_N x) 0 0 Hx H0 H0) as (S1 & S2 & _).
    destruct (octets (Byte.to_N x) 0 0 Hx H0 H0) as (O1 & _).
    change (0 / 16) with 0 in *. rewrite N.add_0_r in S2, O1.
    cbn [b64encode b64decode].
    destruct (b64_val_char _ S1) as [-> _].
    destruct (b64_val_char _ S2) as [-> _].
    change (is_pad "=") with true. cbn iota.
    now rewrite O1, byte_of_to_N.
  - pose proof (Byte.to_N_bounded x) as Hx.
    pose proof (Byte.to_N_bounded y) as Hy.
    assert (H0 : 0 <= 255) by lia.
    destruct (sextets (Byte.to_N x) (Byte.to_N y) 0 Hx Hy H0)
      as (S1 & S2 & S3 & _).
    destruct (octets (Byte.to_N x) (Byte.to_N y) 0 Hx Hy H0) as (O1 & O2 & _).
    change (0 / 64) with 0 in *. rewrite N.add_0_r in S3, O2.
    cbn [b64encode b64decode].
    destruct (b64_val_char _ S1) as [-> _].
    destruct (b64_val_char _ S2) as [-> _].
    destruct (b64_val_char _ S3) as [-> ->].
    change (is_pad "=") with true. cbn iota.
    now rewrite O1, O2, !byte_of_to_N.
  - pose proof (Byte.to_N_bounded x) as Hx.
    pose proof (Byte.to_N_bounded y) as Hy.
    pose proof (Byte.to_N_bounded z) as Hz.
    destruct (sextets (Byte.to_N x) (Byte.to_N y) (Byte.to_N z) Hx Hy Hz)
      as (S1 & S2 & S3 & S4).
    destruct (octets (Byte.to_N x) (Byte.to_N y) (Byte.to_N z) Hx Hy Hz)
      as (O1 & O2 & O3).
    cbn [b64encode b64decode].
    destruct (b64_val_char _ S1) as [-> _].
    destruct (b64_val_char _ S2) as [-> _].
    destruct (b64_val_char _ S3) as [-> ->].
    destruct (b64_val_char _ S4) as [-> ->].
    rewrite IH. cbn iota.
    now rewrite O1, O2, O3, !byte_of_to_N.
Qed.

End Base64Facts.

(** ** JsonField *)

Section JsonFacts.

Import JsonField.

Lemma flatten_list (l : list pyval) :
  flatten (VList l) = option_map JArr (flatten_items l).
Proof. reflexivity. Qed.

Lemma flatten_tuple (l : list pyval) :
  flatten (VTuple l)
  = option_map (fun js => JObj [("py/tuple", JArr js)]) (flatten_items l).
Proof. reflexivity. Qed.

Lemma flatten_dict (d : list (pyval * pyval)) :
  flatten (VDict d)
  = option_map (fun data => JObj (sort_members data)) (flatten_pairs d []).
Proof. reflexivity. Qed.

Lemma restore_array (l : list json) :
  restore (JArr l) = option_map VList (restore_items l).
Proof. reflexivity. Qed.

Lemma restore_object (members : list (string * json)) :
  restore (JObj members)
  = match restore_pairs members with
    | Some restored =>
        if existsb (fun m => reserved (fst m)) (loaded restored) then
          match find_member "py/b64" (loaded restored) with
          | Some (VStr text) => option_map VBytes (Base64.b64decode text)
          | Some _ => None
          | None =>
              match find_member "py/tuple" (loaded restored) with
              | Some (VList l) => Some (VTuple l)
              | _ => None
              end
          end
        else Some (VDict (map text_entry (loaded restored)))
    | None => None
    end.
Proof. reflexivity. Qed.

(** Induction on values, with the property in hand for the items of a
    list or tuple and for the values of a dictionary. *)
Lemma pyval_nested_ind (P : pyval -> Prop) :
  P VNone -> (forall b, P (VBool b)) -> (forall z, P (VInt z)) ->
  (forall bits, P (VFloat bits)) -> (forall s, P (VStr s)) ->
  (forall b, P (VBytes b)) ->
  (forall l, Forall P l -> P (VList l)) ->
  (forall l, Forall P l -> P (VTuple l)) ->
  (forall d, Forall (fun kv => P (snd kv)) d -> P (VDict d)) ->
  (forall cls name value, P (VEnum cls name value)) ->
  (forall t, P (VDatetime t)) ->
  forall v, P v.
Proof.
  intros HNone HBool HInt HFloat HStr HBytes HList HTuple HDict HEnum HDate.
  fix IH 1. intros [ | b | z | bits | s | b | l | l | d | cls name value | t].
  - exact HNone.
  - apply HBool.
  - apply HInt.
  - apply HFloat.
  - apply HStr.
  - apply HBytes.
  - apply HList. induction l as [|x l IHl]; constructor; [apply IH|exact IHl].
  - apply HTuple. induction l as [|x l IHl]; constructor; [apply IH|exact IHl].
  - apply HDict. induction d as [|[k x] d IHd]; constructor;
      [apply IH|exact IHd].
  - apply HEnum.
  - apply HDate.
Qed.

Lemma insert_member_perm {A} (m : string * A) (l : list (string * A)) :
  Permutation (insert_member m l) (m :: l).
Proof.
  induction l as [|h t IH]; [reflexivity|].
  cbn [insert_member]. destruct (String.ltb (fst m) (fst h)); [reflexivity|].
  rewrite IH. apply perm_swap.
Qed.

Lemma sort_members_perm {A} (l : list (string * A)) :
  Permutation (sort_members l) l.
Proof.
  induction l as [|m l IH]; [reflexivity|].
  cbn [sort_members fold_right]. fold (sort_members l).
  rewrite insert_member_perm. now constructor.
Qed.

Lemma existsb_eqb_false (k : string) (l : list string) :
  existsb (String.eqb k) l = false <-> ~ In k l.
Proof.
  split.
  - intros H Hin. assert (existsb (String.eqb k) l = true); [|congruence].
    apply existsb_exists. exists k. split; [exact Hin|apply String.eqb_refl].
  - intros Hn. destruct (existsb (String.eqb k) l) eqn:E; [|reflexivity].
    apply existsb_exists in E as (x & Hin & Heq).
    apply String.eqb_eq in Heq. subst x. contradiction.
Qed.

Lemma dict_set_fresh {A} (k : string) (v : A) (data : list (string * A)) :
  ~ In k (map fst data) -> dict_set k v data = (data ++ [(k, v)])%list.
Proof.
  induction data as [|[k' v'] data IH]; intros Hk; [reflexivity|].
  cbn [map fst In] in Hk. cbn [dict_set app].
  destruct (String.eqb_spec k' k) as [->|_]; [tauto|].
  rewrite IH; [reflexivity|tauto].
Qed.

Lemma distinct_NoDup (l : list string) :
  distinct l = true -> List.NoDup l.
Proof.
  induction l as [|x l IH]; intros H; [constructor|].
  cbn [distinct] in H. apply andb_true_iff in H as [Hx Hl].
  apply negb_true_iff, existsb_eqb_false in Hx.
  constructor; [exact Hx|now apply IH].
Qed.

(** Members of distinct names load as they are. *)
Lemma loaded_distinct_from (l acc : list (string * pyval)) :
  List.NoDup (map fst (acc ++ l)) ->
  fold_left (fun data m => dict_set (fst m) (snd m) data) l acc
  = (acc ++ l)%list.
Proof.
  revert acc. induction l as [|[k v] l IH]; intros acc Hnd.
  - now rewrite app_nil_r.
  - cbn [fold_left fst snd]. rewrite dict_set_fresh.
    + rewrite IH; rewrite <- app_assoc; [reflexivity|exact Hnd].
    + rewrite map_app in Hnd. cbn [map fst] in Hnd.
      apply List.NoDup_remove_2 in Hnd. intros Hin. apply Hnd.
      apply in_or_app. now left.
Qed.

Lemma loaded_distinct (l : list (string * pyval)) :
  List.NoDup (map fst l) -> loaded l = l.
Proof. intros H. unfold loaded. now rewrite loaded_distinct_from. Qed.

Lemma items_round_trip (l : list pyval) :
  Forall round_trips l -> forallb text_keyed l = true ->
  exists js ys, flatten_items l = Some js /\ restore_items js = Some ys
                /\ Forall2 same_value ys l.
Proof.
  induction 1 as [|x l Hx _ IH]; intros Hl.
  - exists [], []. repeat split; constructor.
  - cbn [forallb] in Hl. apply andb_true_iff in Hl as [Htx Htl].
    destruct (Hx Htx) as (j & y & Hj & Hr & Hs).
    destruct (IH Htl) as (js & ys & Hjs & Hrs & Hss).
    exists (j :: js), (y :: ys). cbn [flatten_items restore_items].
    rewrite Hj, Hjs, Hr, Hrs. repeat split. now constructor.
Qed.

Lemma reserved_not_picklable (k : string) :
  reserved k = false -> not_picklable (VStr k) = false.
Proof.
  unfold reserved, not_picklable. cbn [existsb].
  intros H. apply orb_false_iff in H as [_ H].
  now apply orb_false_iff in H as [_ H].
Qed.

Lemma pairs_flatten (d : list (pyval * pyval)) :
  Forall (fun kv => round_trips (snd kv)) d ->
  forall (ks : list string) (data : list (string * json)),
    text_keys d = Some ks -> distinct ks = true ->
    existsb reserved ks = false ->
    (forall k, In k ks -> ~ In k (map fst data)) ->
    forallb (fun kv => text_keyed (snd kv)) d = true ->
    exists ms, flatten_pairs d data = Some (data ++ ms)%list
               /\ map fst ms = ks /\ Forall2 restores_to ms d.
Proof.
  induction 1 as [|[k x] d Hx _ IH];
    intros ks data Hks Hdist Hres Hfresh Hall.
  - injection Hks as <-. exists []. cbn [flatten_pairs].
    rewrite app_nil_r. repeat split. constructor.
  - cbn [text_keys] in Hks. destruct k; try discriminate Hks.
    destruct (text_keys d) as [ks'|] eqn:Hks'; [|discriminate Hks].
    injection Hks as <-.
    cbn [distinct] in Hdist. apply andb_true_iff in Hdist as [Hs Hdist].
    apply negb_true_iff, existsb_eqb_false in Hs.
    cbn [existsb] in Hres. apply orb_false_iff in Hres as [Hrs Hres].
    cbn [forallb snd] in Hall. apply andb_true_iff in Hall as [Htx Hall].
    destruct (Hx Htx) as (j & y & Hj & Hr & Hsame). cbn [snd] in Hj, Hr, Hsame.
    destruct (IH ks' (data ++ [(s, j)])%list eq_refl Hdist Hres)
      as (ms & Hms & Hfst & Hrel).
    + intros k Hk. rewrite map_app, in_app_iff. cbn [map fst In].
      intros [Hin|[->|[]]].
      * apply (Hfresh k); [now right|exact Hin].
      * contradiction.
    + exact Hall.
    + exists ((s, j) :: ms). cbn [flatten_pairs key_text].
      rewrite (reserved_not_picklable s Hrs), Hj, dict_set_fresh.
      * rewrite Hms, <- app_assoc. cbn [app map fst].
        rewrite Hfst. repeat split. constructor; [|exact Hrel].
        split; [reflexivity|]. now exists y.
      * apply Hfresh. now left.
Qed.

Lemma restore_pairs_of (ms : list (string * json)) (d : list (pyval * pyval)) :
  Forall2 restores_to ms d ->
  exists ys, restore_pairs ms = Some ys /\ map fst ys = map fst ms
             /\ Forall2 entry_of ys d.
Proof.
  induction 1 as [|[k j] kv ms d (Hk & y & Hr & Hs) _ (ys & Hys & Hfst & Hrel)].
  - exists []. repeat split. constructor.
  - exists ((k, y) :: ys). cbn [restore_pairs snd] in *.
    rewrite Hr, Hys. cbn [map fst]. rewrite Hfst. repeat split.
    constructor; [|exact Hrel]. now split.
Qed.

Lemma entries_same (ys : list (string * pyval)) (d : list (pyval * pyval)) :
  Forall2 entry_of ys d ->
  Forall2 (fun kv kv' => fst kv = fst kv' /\ same_value (snd kv) (snd kv'))
          (map text_entry ys) d.
Proof.
  induction 1 as [|[k y] kv ys d [Hk Hs] _ IH]; [constructor|].
  cbn [map text_entry fst snd]. constructor; [|exact IH].
  cbn [fst snd] in *. split; [now rewrite Hk|exact Hs].
Qed.

Lemma existsb_fst {A} (p : string -> bool) (l : list (string * A)) :
  existsb (fun m => p (fst m)) l = existsb p (map fst l).
Proof.
  induction l as [|[k x] l IH]; [reflexivity|].
  cbn [existsb map fst]. now rewrite IH.
Qed.

Lemma existsb_perm {A} (p : A -> bool) (l l' : list A) :
  Permutation l l' -> existsb p l = false -> existsb p l' = false.
Proof.
  intros Hp Hl. destruct (existsb p l') eqn:E; [|reflexivity].
  apply existsb_exists in E as (x & Hin & Hx).
  assert (existsb p l = true); [|congruence].
  apply existsb_exists. exists x. split; [|exact Hx].
  now apply (Permutation_in x (Permutation_sym Hp)).
Qed.

Lemma dict_round_trip (d : list (pyval * pyval)) :
  Forall (fun kv => round_trips (snd kv)) d -> round_trips (VDict d).
Proof.
  intros IH Hv. cbn [text_keyed] in Hv.
  apply andb_true_iff in Hv as [Hkeys Hall].
  destruct (text_keys d) as [ks|] eqn:Hks; [|discriminate Hkeys].
  apply andb_true_iff in Hkeys as [Hdist Hres].
  apply negb_true_iff in Hres.
  destruct (pairs_flatten d IH ks [] Hks Hdist Hres) as (ms & Hms & Hfst & Hrel).
  { intros k _ []. }
  { exact Hall. }
  cbn [app] in Hms.
  pose proof (sort_members_perm ms) as Hperm.
  destruct (Permutation_Forall2 (Permutation_sym Hperm) Hrel)
    as (d' & Hd' & Hrel').
  destruct (restore_pairs_of _ _ Hrel') as (ys & Hys & Hnames & Hent).
  assert (Hpk : Permutation (map fst ys) ks).
  { rewrite Hnames, <- Hfst. now apply Permutation_map. }
  assert (Hnd : List.NoDup (map fst ys)).
  { apply (Permutation_NoDup (Permutation_sym Hpk)).
    now apply distinct_NoDup. }
  exists (JObj (sort_members ms)), (VDict (map text_entry ys)).
  split; [now rewrite flatten_dict, Hms|]. split.
  - rewrite restore_object, Hys, (loaded_distinct ys Hnd), existsb_fst.
    now rewrite (existsb_perm reserved ks (map fst ys) (Permutation_sym Hpk) Hres).
  - apply (same_dict _ _ d'); [now apply Permutation_sym|].
    now apply entries_same.
Qed.

Lemma text_keyed_round_trips (v : pyval) : round_trips v.
Proof.
  induction v as [ | b | z | bits | s | b | l IH | l IH | d IH
                   | cls name value | t ] using pyval_nested_ind;
    try (now apply dict_round_trip);
    unfold round_trips; intros Hv; try discriminate Hv.
  - exists JNull, VNone. repeat split. constructor.
  - exists (JBool b), (VBool b). repeat split. constructor.
  - exists (JInt z), (VInt z). repeat split. constructor.
  - exists (JFloat bits), (VFloat bits). repeat split. constructor.
    cbn [text_keyed] in Hv. now apply negb_true_iff in Hv.
  - exists (JStr s), (VStr s). repeat split. constructor.
  - exists (JObj [("py/b64", JStr (Base64.b64encode b))]), (VBytes b).
    split; [reflexivity|]. split; [|constructor].
    rewrite restore_object. cbn [restore_pairs restore].
    change (loaded [("py/b64", VStr (Base64.b64encode b))])
      with [("py/b64", VStr (Base64.b64encode b))].
    cbn [existsb fst find_member]. change (reserved "py/b64") with true.
    cbn [orb]. rewrite String.eqb_refl.
    now rewrite b64decode_b64encode.
  - destruct (items_round_trip l IH Hv) as (js & ys & Hjs & Hrs & Hs).
    exists (JArr js), (VList ys).
    rewrite flatten_list, restore_array, Hjs, Hrs.
    repeat split. now constructor.
  - destruct (items_round_trip l IH Hv) as (js & ys & Hjs & Hrs & Hs).
    exists (JObj [("py/tuple", JArr js)]), (VTuple ys).
    rewrite flatten_tuple, Hjs. split; [reflexivity|]. split; [|now constructor].
    rewrite restore_object. cbn [restore_pairs].
    rewrite restore_array, Hrs. cbn [option_map].
    change (loaded [("py/tuple", VList ys)]) with [("py/tuple", VList ys)].
    cbn [existsb fst find_member]. change (reserved "py/tuple") with true.
    cbn [orb]. change (String.eqb "py/tuple" "py/b64") with false.
    cbn iota. now rewrite String.eqb_refl.
Qed.

Lemma single_entry_key (k k' : pyval) (y v : pyval) :
  same_value (VDict [(k, y)]) (VDict [(k', v)]) -> k = k'.
Proof.
  intros H. inversion H as [ | | | | | | | | d d' e Hperm Hrel]; subst.
  apply Permutation_sym, Permutation_length_1_inv in Hperm. subst e.
  inversion Hrel as [|? ? ? ? [Hk _] _]; subst. exact Hk.
Qed.

Lemma empty_dict_differs (kv : pyval * pyval) :
  ~ same_value (VDict []) (VDict [kv]).
Proof.
  intros H. inversion H as [ | | | | | | | | d d' e Hperm Hrel]; subst.
  inversion Hrel; subst. now apply Permutation_nil in Hperm.
Qed.

Lemma single_entry_flatten (k : pyval) (name : string) (v : pyval) :
  key_text k = Some name -> reserved name = false -> text_keyed v = true ->
  exists j y, flatten (VDict [(k, v)]) = Some (JObj [(name, j)])
              /\ restore (JObj [(name, j)]) = Some (VDict [(VStr name, y)])
              /\ same_value y v.
Proof.
  intros Hk Hres Hv.
  destruct (text_keyed_round_trips v Hv) as (j & y & Hj & Hr & Hs).
  exists j, y. split; [|split; [|exact Hs]].
  - rewrite flatten_dict. cbn [flatten_pairs].
    assert (Hp : not_picklable k = false).
    { destruct k; try reflexivity. cbn [key_text] in Hk. injection Hk as ->.
      now apply reserved_not_picklable. }
    now rewrite Hp, Hk, Hj.
  - rewrite restore_object. cbn [restore_pairs]. rewrite Hr.
    change (loaded [(name, y)]) with [(name, y)].
    cbn [existsb fst]. now rewrite Hres.
Qed.

(** C7, as stated, on three values it covers.  A dictionary with an
    integer key: [dumps] is called without [keys=True], so the key [1]
    of [{1: "a"}] is written as the text ["1"] and the value read back
    is [{"1": "a"}].  A dictionary with a reserved name as key: the
    entry is left out, and [{"py/tuple": [1, 2]}] is read back as the
    empty dictionary.  The float NaN: it is read back as NaN, which is
    equal to no value. *)
Lemma C7_integer_key_comes_back_text :
  (exists j, db_value JsonSamples.int_keyed = Some j
             /\ python_value j = Some (VDict [(VStr "1", VStr "a")])
             /\ ~ same_value (VDict [(VStr "1", VStr "a")])
                             JsonSamples.int_keyed)
  /\ (exists j, db_value JsonSamples.tag_keyed = Some j
                /\ python_value j = Some (VDict [])
                /\ ~ same_value (VDict []) JsonSamples.tag_keyed)
  /\ (exists j, db_value JsonSamples.nan = Some j
                /\ python_value j = Some JsonSamples.nan
                /\ ~ same_value JsonSamples.nan JsonSamples.nan).
Proof.
  split; [|split].
  - exists (JObj [("1", JStr "a")]).
    split; [reflexivity|]. split; [reflexivity|].
    intros H. apply single_entry_key in H. discriminate H.
  - exists (JObj []). split; [reflexivity|]. split; [reflexivity|].
    apply empty_dict_differs.
  - exists (JFloat 9221120237041090560).
    split; [reflexivity|]. split; [reflexivity|].
    intros H. inversion H as [ | | | bits Hnan | | | | | ]; subst.
    discriminate Hnan.
Qed.

(** C7, amended: for every value [x] built from [None], booleans,
    integers, floats other than NaN, text, bytes, lists, tuples and
    dictionaries whose keys are text (distinct, and none a tag name of
    jsonpickle), decoding what [JsonField.db_value] stores for [x]
    gives a value equal to [x], dictionaries being equal whatever the
    order of their entries.  A dictionary key [k] that is not text is
    stored as its text form and comes back as that text, so the
    dictionary read back is not equal to the one stored. *)
Theorem C7_json_roundtrip (x k v : pyval) (name : string) :
  (text_keyed x = true ->
   exists j y, db_value x = Some j /\ python_value j = Some y
               /\ same_value y x)
  /\ (key_text k = Some name -> k <> VStr name -> reserved name = false ->
      text_keyed v = true ->
      exists j y, db_value (VDict [(k, v)]) = Some j
                  /\ python_value j = Some (VDict [(VStr name, y)])
                  /\ same_value y v
                  /\ ~ same_value (VDict [(VStr name, y)]) (VDict [(k, v)])).
Proof.
  split.
  - exact (text_keyed_round_trips x).
  - intros Hk Hne Hres Hv.
    destruct (single_entry_flatten k name v Hk Hres Hv) as (j & y & Hj & Hr & Hs).
    exists (JObj [(name, j)]), y. unfold db_value, python_value.
    split; [exact Hj|]. split; [exact Hr|]. split; [exact Hs|].
    intros H. apply single_entry_key in H. congruence.
Qed.

Lemma C7_witness :
  (exists j y, db_value JsonSamples.details = Some j
               /\ python_value j = Some y
               /\ same_value y JsonSamples.details)
  /\ (exists j y, db_value (VDict [(VInt 7, VList [VNone])]) = Some j
                  /\ python_value j = Some (VDict [(VStr "7", y)])
                  /\ same_value y (VList [VNone])
                  /\ ~ same_value (VDict [(VStr "7", y)])
                                  (VDict [(VInt 7, VList [VNone])])).
Proof.
  destruct (C7_json_roundtrip JsonSamples.details (VInt 7) (VList [VNone]) "7")
    as [Hx Hk].
  split; [apply Hx; reflexivity|].
  apply Hk; [reflexivity|discriminate|reflexivity|reflexivity].
Defined.

End JsonFacts.

(** * Further properties *)

(** ** The schema gate and the handle, beyond the version bump *)

Section DatabaseMore.

Import Sqlite Database Samples.

(** [Database.__init__] on a closed handle, in closed form. *)
Lemma init_on_closed (drv : driver) (datadir : string) (w : world) :
  is_closed (db w) = true ->
  __init__ drv datadir w
  = Ok (SharedHandle,
        {| db := {| database := Some (db_path datadir);
                    conn := Some (S (opened (db w)));
                    opened := S (opened (db w)) |};
           files := <[db_path datadir :=
                        file_of (create_database
                                   (default empty_file
                                      (files w !! db_path datadir)))]>
                      (files w) |}).
Proof.
  destruct w as [[d [c|] o] fs]; [discriminate|intros _].
  destruct drv as [closes refuses].
  unfold __init__, db_connect, db_init, on_file, is_closed, db_close.
  cbn [db database files conn opened init_closes connect_refuses
       negb andb Py.bind].
  rewrite !andb_false_r. cbn [Py.bind db database files].
  destruct (fs !! db_path datadir) as [f|] eqn:Hf.
  - rewrite Hf. change (default empty_file (Some f)) with f.
    unfold file_of.
    destruct (create_database f) as [[[] f'] l].
    reflexivity.
  - rewrite lookup_insert_eq.
    change (default empty_file None) with empty_file.
    unfold file_of.
    destruct (create_database empty_file) as [[[] f'] l].
    cbn [Py.bind fst snd db opened].
    now rewrite insert_insert_eq.
Qed.

Lemma create_tables_keeps_rows (l : list string) (f : file) (t : string)
      (rows : list row) :
  tables f !! t = Some rows ->
  tables (file_of (create_tables_safe l f)) !! t = Some rows.
Proof.
  intros Ht. destruct (create_tables_spec l f) as (_ & _ & Hlook).
  rewrite Hlook, Ht. now destruct (decide (t ∈ l)).
Qed.



(** X2: when the stored marker already is the expected version,
    [create_database] loses nothing: every table keeps its rows, the
    marker is not written, and no table is dropped. *)
Theorem X2_same_version_keeps_rows (expected : Z) (f : file) (t : string)
        (rows : list row) :
  user_version f = expected ->
  tables f !! t = Some rows ->
  tables (file_of (create_database_at expected f)) !! t = Some rows
  /\ user_version (file_of (create_database_at expected f)) = user_version f
  /\ ran (create_database_at expected f)
     = PragmaUserVersion :: map CreateTableIfNotExists managed_tables.
Proof.
  intros Heq Ht. rewrite (create_database_match _ _ Heq).
  unfold file_of at 1 3, ran. cbn [fst snd].
  split; [now apply create_tables_keeps_rows|].
  split; [|reflexivity].
  now destruct (create_tables_spec managed_tables f) as (Hv & _).
Qed.

Lemma X2_witness :
  tables (file_of (create_database_at 5 populated_file)) !! "Payment"
  = tables populated_file !! "Payment".
Proof.
  destruct (X2_same_version_keeps_rows 5 populated_file "Payment"
              [({[ "subtask" := VStr "T1000" ]} : row)] eq_refl eq_refl)
    as (H & _).
  exact H.
Defined.

(** X3: whatever the file was, after [create_database] with an
    expected version that the marker can hold (a signed 32-bit
    integer), the marker reads that version and every managed table
    exists. *)
Theorem X3_schema_established (expected : Z) (f : file) :
  int32 expected = true ->
  user_version (file_of (create_database_at expected f)) = expected
  /\ forall t, t ∈ managed_tables ->
               is_Some (tables (file_of (create_database_at expected f)) !! t).
Proof.
  intros Hr. split.
  - now apply create_database_marker.
  - intros t Ht. now apply create_database_tables.
Qed.

Lemma X3_witness :
  user_version (file_of (create_database_at 5 annotated_file)) = 5%Z
  /\ forall t, t ∈ managed_tables ->
               is_Some (tables (file_of (create_database_at 5 annotated_file)) !! t).
Proof. apply (X3_schema_established 5 annotated_file). reflexivity. Defined.

(** X4: opening a data directory that has no database file yet, on a
    closed handle, succeeds with any driver: the handle is open
    afterwards, the file exists, its marker reads [SCHEMA_VERSION] and
    every managed table exists with no row. *)
Theorem X4_first_open_builds_schema (drv : driver) (datadir : string)
        (w : world) :
  is_closed (db w) = true ->
  files w !! db_path datadir = None ->
  exists w' f,
    __init__ drv datadir w = Ok (SharedHandle, w')
    /\ is_closed (db w') = false
    /\ files w' !! db_path datadir = Some f
    /\ user_version f = SCHEMA_VERSION
    /\ forall t, t ∈ managed_tables -> tables f !! t = Some [].
Proof.
  intros Hclosed Hnone. rewrite (init_on_closed drv datadir w Hclosed).
  rewrite Hnone. change (default empty_file None) with empty_file.
  eexists _, _. split; [reflexivity|]. split; [reflexivity|].
  cbn [files]. rewrite lookup_insert_eq. split; [reflexivity|].
  assert (Hne : user_version empty_file <> SCHEMA_VERSION) by discriminate.
  split; [now apply create_database_marker|].
  intros t Ht. now apply mismatch_empties.
Qed.

Lemma X4_witness :
  exists w' f,
    __init__ (driver_of true true) "/data"
      {| db := deferred_handle; files := ∅ |} = Ok (SharedHandle, w')
    /\ is_closed (db w') = false
    /\ files w' !! db_path "/data" = Some f
    /\ user_version f = SCHEMA_VERSION
    /\ forall t, t ∈ managed_tables -> tables f !! t = Some [].
Proof.
  apply (X4_first_open_builds_schema (driver_of true true) "/data"
           {| db := deferred_handle; files := ∅ |}); reflexivity.
Defined.

(** X5: opening, on a closed handle, a database file whose marker
    already reads [SCHEMA_VERSION] succeeds and keeps every stored row;
    files at other paths are not touched. *)
Theorem X5_reopen_keeps_rows (drv : driver) (datadir : string) (w : world)
        (f : file) (t : string) (rows : list row) :
  is_closed (db w) = true ->
  files w !! db_path datadir = Some f ->
  user_version f = SCHEMA_VERSION ->
  tables f !! t = Some rows ->
  exists w' f',
    __init__ drv datadir w = Ok (SharedHandle, w')
    /\ files w' !! db_path datadir = Some f'
    /\ tables f' !! t = Some rows
    /\ forall p, p <> db_path datadir -> files w' !! p = files w !! p.
Proof.
  intros Hclosed Hf Hv Ht. rewrite (init_on_closed drv datadir w Hclosed).
  rewrite Hf. change (default empty_file (Some f)) with f.
  eexists _, _. split; [reflexivity|]. cbn [files].
  rewrite lookup_insert_eq. split; [reflexivity|]. split.
  - unfold create_database. rewrite (create_database_match _ _ Hv).
    unfold file_of at 1. cbn [fst snd]. now apply create_tables_keeps_rows.
  - intros p Hp. now rewrite lookup_insert_ne by congruence.
Qed.

Lemma X5_witness :
  exists w' f',
    __init__ (driver_of false true) "/data" (close open_world)
    = Ok (SharedHandle, w')
    /\ files w' !! db_path "/data" = Some f'
    /\ tables f' !! "Payment" = Some [({[ "subtask" := VStr "T1000" ]} : row)]
    /\ forall p, p <> db_path "/data" ->
                 files w' !! p = files (close open_world) !! p.
Proof.
  apply (X5_reopen_keeps_rows (driver_of false true) "/data"
           (close open_world) populated_file "Payment"
           [({[ "subtask" := VStr "T1000" ]} : row)]); reflexivity.
Defined.

(** X6: [Database.close] closes the handle, touches no file, and is
    idempotent: closing a closed handle changes nothing. *)
Theorem X6_close_idempotent (w : world) :
  is_closed (db (close w)) = true
  /\ files (close w) = files w
  /\ close (close w) = close w.
Proof.
  unfold close, is_closed, db_close.
  destruct w as [[d [c|] o] fs]; cbn; repeat split; reflexivity.
Qed.

Lemma close_closes (w : world) : is_closed (db (close w)) = true.
Proof.
  unfold close, is_closed, db_close. now destruct w as [[d [c|] o] fs].
Qed.

(** X7: after [Database.close], opening again succeeds whatever the
    driver does with open handles, and the handle then holds a
    connection that did not exist before. *)
Theorem X7_open_after_close (drv : driver) (datadir : string) (w : world) :
  exists w',
    __init__ drv datadir (close w) = Ok (SharedHandle, w')
    /\ conn (db w') = Some (S (opened (db w)))
    /\ database (db w') = Some (db_path datadir).
Proof.
  rewrite (init_on_closed drv datadir (close w) (close_closes w)).
  eexists. split; [reflexivity|]. cbn [db conn database].
  split; [|reflexivity].
  unfold close, db_close. now destruct (negb (is_closed (db w))).
Qed.

End DatabaseMore.

(** ** The codecs, beyond the round trips of the specification *)

Section CodecsMore.

Import Hex.

(** X8: [BigIntegerField] round-trips every instance of [int], negative
    ones included (the sign is written in front of the digits); a [bool]
    is stored as its integer and read back as that integer. *)
Theorem X8_biginteger_signed (value : pyval) (z : Z) :
  int_of value = Some z ->
  exists s, BigIntegerField.db_value value = Ok s
            /\ BigIntegerField.python_value (VStr s) = Ok (VInt z).
Proof.
  intros Hz. exists (BigIntegerField.format_x z).
  unfold BigIntegerField.db_value. rewrite Hz. split; [reflexivity|].
  cbn [BigIntegerField.python_value Py.bind]. now rewrite int16_format_x.
Qed.

Lemma X8_witness :
  exists s, BigIntegerField.db_value (VInt (- 2 ^ 70)) = Ok s
            /\ BigIntegerField.python_value (VStr s) = Ok (VInt (- 2 ^ 70)).
Proof. apply (X8_biginteger_signed (VInt (- 2 ^ 70)) (- 2 ^ 70)). reflexivity. Defined.

(** X9: two integers that [BigIntegerField.db_value] stores as the same
    text are the same integer. *)
Theorem X9_biginteger_injective (a b : Z) :
  BigIntegerField.db_value (VInt a) = BigIntegerField.db_value (VInt b) ->
  a = b.
Proof.
  cbn [BigIntegerField.db_value int_of]. intros H. injection H as H.
  pose proof (int16_format_x a) as Ha. rewrite H, int16_format_x in Ha.
  now injection Ha.
Qed.

Lemma X9_witness : (255 = 255)%Z.
Proof. apply (X9_biginteger_injective 255 255). reflexivity. Defined.

(** X10: what [EnumField.python_value] returns for a stored integer is a
    member of the enumeration, and [EnumField.db_value] stores that
    member as the same integer. *)
Theorem X10_enum_decode_encode (E : EnumField.enum_type) (z : Z) (v : pyval) :
  EnumField.python_value E z = Ok v ->
  EnumField.is_member E v /\ EnumField.db_value E v = Ok z.
Proof.
  unfold EnumField.python_value, EnumField.call.
  destruct (List.find _ _) as [[n x]|] eqn:Hfind; [|discriminate].
  intros H. injection H as <-. cbn [fst snd].
  apply find_some in Hfind as [Hin Hx]. cbn [snd] in Hx.
  apply Z.eqb_eq in Hx. subst x.
  assert (Hm : EnumField.is_member E (VEnum (EnumField.enum_name E) n z))
    by now exists n, z.
  split; [exact Hm|].
  unfold EnumField.db_value.
  now rewrite (proj2 (isinstance_is_member E _) Hm).
Qed.

Lemma X10_witness :
  EnumField.is_member PaymentStatus (VEnum "PaymentStatus" "confirmed" 3)
  /\ EnumField.db_value PaymentStatus (VEnum "PaymentStatus" "confirmed" 3)
     = Ok 3%Z.
Proof.
  apply (X10_enum_decode_encode PaymentStatus 3). reflexivity.
Defined.

(** X11: a stored status decodes to a [PaymentStatus] exactly when it is
    1, 2 or 3; any other integer raises [ValueError]. *)
Theorem X11_payment_status_ordinals (z : Z) :
  ((1 <= z <= 3)%Z ->
   exists name, EnumField.python_value PaymentStatus z
                = Ok (VEnum "PaymentStatus" name z))
  /\ (~ (1 <= z <= 3)%Z ->
      EnumField.python_value PaymentStatus z = Raise ValueError).
Proof.
  split.
  - intros Hz.
    assert (z = 1 \/ z = 2 \/ z = 3)%Z as [ -> | [ -> | -> ] ] by lia;
      eexists; reflexivity.
  - intros Hz. unfold EnumField.python_value, EnumField.call.
    rewrite find_no_member; [reflexivity|]. cbn. lia.
Qed.

Lemma X11_witness :
  (exists name, EnumField.python_value PaymentStatus 2
                = Ok (VEnum "PaymentStatus" name 2))
  /\ EnumField.python_value PaymentStatus 0 = Raise ValueError.
Proof.
  destruct (X11_payment_status_ordinals 2) as [H2 _].
  destruct (X11_payment_status_ordinals 0) as [_ H0].
  split; [apply H2; lia|apply H0; lia].
Defined.

End CodecsMore.

Section JsonMore.

Import JsonField.

(** X12: a dictionary key that is not text does not survive
    [JsonField]: the entry is stored under the text form of its key
    ([repr] of an integer, ["null"] for [None]) and is read back with
    that text as its key. *)
Theorem X12_key_becomes_text (k : pyval) (name : string) (v : pyval) :
  key_text k = Some name ->
  reserved name = false ->
  text_keyed v = true ->
  exists j y, db_value (VDict [(k, v)]) = Some j
              /\ python_value j = Some (VDict [(VStr name, y)])
              /\ same_value y v.
Proof.
  intros Hk Hres Hv.
  destruct (single_entry_flatten k name v Hk Hres Hv) as (j & y & Hj & Hr & Hs).
  now exists (JObj [(name, j)]), y.
Qed.

Lemma X12_witness :
  exists j y, db_value (VDict [(VInt (-42), VList [VNone])]) = Some j
              /\ python_value j = Some (VDict [(VStr "-42", y)])
              /\ same_value y (VList [VNone]).
Proof.
  apply (X12_key_becomes_text (VInt (-42)) "-42" (VList [VNone]));
    reflexivity.
Defined.

(** X13: two entries whose keys have the same text form (the integer 1
    and the text ["1"], say) are stored as one member, the later value
    replacing the earlier: the first entry is lost on the way. *)
Theorem X13_keys_collide (k : pyval) (name : string) (a b : pyval) :
  key_text k = Some name ->
  reserved name = false ->
  text_keyed a = true ->
  text_keyed b = true ->
  exists j y, db_value (VDict [(k, a); (VStr name, b)]) = Some j
              /\ python_value j = Some (VDict [(VStr name, y)])
              /\ same_value y b.
Proof.
  intros Hk Hres Ha Hb.
  destruct (text_keyed_round_trips a Ha) as (ja & _ & Hja & _).
  destruct (text_keyed_round_trips b Hb) as (jb & y & Hjb & Hrb & Hs).
  exists (JObj [(name, jb)]), y. unfold db_value, python_value.
  assert (Hp : not_picklable k = false).
  { destruct k; try reflexivity. cbn [key_text] in Hk. injection Hk as ->.
    now apply reserved_not_picklable. }
  split; [|split; [|exact Hs]].
  - rewrite flatten_dict. cbn [flatten_pairs key_text].
    rewrite Hp, Hk, Hja, (reserved_not_picklable name Hres), Hjb.
    cbn [dict_set]. now rewrite String.eqb_refl.
  - rewrite restore_object. cbn [restore_pairs]. rewrite Hrb.
    change (loaded [(name, y)]) with [(name, y)].
    cbn [existsb fst]. now rewrite Hres.
Qed.

Lemma X13_witness :
  exists j y,
    db_value (VDict [(VInt 1, VStr "a"); (VStr "1", VStr "b")]) = Some j
    /\ python_value j = Some (VDict [(VStr "1", y)])
    /\ same_value y (VStr "b").
Proof.
  apply (X13_keys_collide (VInt 1) "1" (VStr "a") (VStr "b")); reflexivity.
Defined.



End JsonMore.

(** ** Payment and HardwarePreset *)

Section PaymentMore.

Import Model Payment.

Lemma payment_init_unfold (kwargs : list (string * pyval)) (c : clock) :
  fst (Payment.__init__ kwargs c)
  = match get_field "details" (fst (Model.__init__ Payment kwargs c)) with
    | VNone => setattr Payment "details" (VDict [])
                 (fst (Model.__init__ Payment kwargs c))
    | _ => fst (Model.__init__ Payment kwargs c)
    end.
Proof.
  unfold Payment.__init__.
  now destruct (Model.__init__ Payment kwargs c) as [self c'].
Qed.

Lemma model_init_last (M : model_class) (kwargs : list (string * pyval))
      (name : string) (v : pyval) (c : clock) :
  is_field M name = true ->
  get_field name (fst (Model.__init__ M (kwargs ++ [(name, v)]) c)) = v.
Proof.
  intros Hf. unfold Model.__init__.
  destruct (get_default_dict M c) as [dd c']. cbn [fst].
  rewrite fold_left_app. cbn [fold_left fst snd].
  now apply get_field_setattr_eq.
Qed.

(** X15: a payment constructed with [details] given, and not [None],
    has the [details] it was given: the constructor only fills in a
    missing value. *)
Theorem X15_payment_details_kept (kwargs : list (string * pyval))
        (v : pyval) (c : clock) :
  v <> VNone ->
  get_field "details"
    (fst (Payment.__init__ (kwargs ++ [("details", v)]) c)) = v.
Proof.
  intros Hv. rewrite payment_init_unfold.
  rewrite (model_init_last Payment kwargs "details" v c eq_refl).
  destruct v; try contradiction;
    apply (model_init_last Payment kwargs "details" _ c eq_refl).
Qed.

Lemma X15_witness :
  get_field "details"
    (fst (Payment.__init__
            ([("subtask", VStr "T1000")] ++ [("details", JsonSamples.details)])
            ModelSamples.counting_clock))
  = JsonSamples.details.
Proof.
  apply (X15_payment_details_kept [("subtask", VStr "T1000")]
           JsonSamples.details ModelSamples.counting_clock).
  discriminate.
Defined.

Lemma payment_default_status (c : clock) :
  fst (get_default_dict Payment c) !! "status"
  = Some (VEnum "PaymentStatus" "awaiting" 1).
Proof.
  unfold get_default_dict, Payment, BaseModel.subclass. cbn.
  rewrite !lookup_insert_ne by discriminate. now rewrite lookup_insert_eq.
Qed.

(** X16: a payment constructed without a [status] is awaiting, and
    [EnumField] stores that status as 1. *)
Theorem X16_payment_status_default (kwargs : list (string * pyval))
        (c : clock) :
  (forall v, ~ In ("status", v) kwargs) ->
  get_field "status" (fst (Payment.__init__ kwargs c))
  = VEnum "PaymentStatus" "awaiting" 1
  /\ EnumField.db_value PaymentStatus
       (get_field "status" (fst (Payment.__init__ kwargs c))) = Ok 1%Z.
Proof.
  intros Hk.
  assert (H : get_field "status" (fst (Payment.__init__ kwargs c))
              = VEnum "PaymentStatus" "awaiting" 1).
  { rewrite payment_init_unfold.
    assert (H0 : get_field "status" (fst (Model.__init__ Payment kwargs c))
                 = VEnum "PaymentStatus" "awaiting" 1).
    { rewrite init_get_field by exact Hk.
      now rewrite payment_default_status. }
    destruct (get_field "details" (fst (Model.__init__ Payment kwargs c)));
      try exact H0.
    rewrite get_field_setattr_ne by discriminate. exact H0. }
  split; [exact H|]. now rewrite H.
Qed.

Lemma X16_witness :
  get_field "status"
    (fst (Payment.__init__ ModelSamples.bare_payment
            ModelSamples.counting_clock))
  = VEnum "PaymentStatus" "awaiting" 1
  /\ EnumField.db_value PaymentStatus
       (get_field "status"
          (fst (Payment.__init__ ModelSamples.bare_payment
                  ModelSamples.counting_clock))) = Ok 1%Z.
Proof.
  apply (X16_payment_status_default ModelSamples.bare_payment
           ModelSamples.counting_clock).
  intros v [H|[H|[H|[]]]]; discriminate H.
Defined.

Lemma payment_details_default (kwargs : list (string * pyval)) (c : clock) :
  (forall v, In ("details", v) kwargs -> v = VNone) ->
  get_field "details" (fst (Payment.__init__ kwargs c)) = VDict [].
Proof.
  intros Hk. rewrite payment_init_unfold.
  assert (Hnone : get_field "details" (fst (Model.__init__ Payment kwargs c))
                  = VNone).
  { unfold Model.__init__.
    pose proof (payment_default_details c) as Hdd.
    destruct (get_default_dict Payment c) as [dd c'']. cbn [fst] in *.
    apply kwargs_none; [exact Hk|].
    unfold get_field. cbn [_data]. now rewrite Hdd. }
  rewrite Hnone. now apply get_field_setattr_eq.
Qed.

(** X17: on a payment constructed without [details] (or with [None]
    for it), [get_sender_node] does not raise and returns [None]. *)
Theorem X17_sender_node_of_bare_payment (kwargs : list (string * pyval))
        (c : clock) :
  (forall v, In ("details", v) kwargs -> v = VNone) ->
  PaymentMethods.get_sender_node (fst (Payment.__init__ kwargs c))
  = Some VNone.
Proof.
  intros Hk. unfold PaymentMethods.get_sender_node.
  now rewrite (payment_details_default kwargs c Hk).
Qed.

Lemma X17_witness :
  PaymentMethods.get_sender_node
    (fst (Payment.__init__ ModelSamples.bare_payment
            ModelSamples.counting_clock)) = Some VNone.
Proof.
  apply (X17_sender_node_of_bare_payment ModelSamples.bare_payment
           ModelSamples.counting_clock).
  intros v [H|[H|[H|[]]]]; try discriminate H. now injection H.
Defined.

End PaymentMore.

Section PresetMore.

Import Model HardwarePreset.

(** X18: [apply] with a dictionary that has the three keys returns, and
    [to_dict] then shows the three values of the dictionary beside the
    name the preset already had. *)
Theorem X18_apply_then_to_dict (dictionary : list (pyval * pyval))
        (self : instance) (cpu_cores memory disk : pyval) (name : string) :
  Dict.lookup dictionary "cpu_cores" = Some cpu_cores ->
  Dict.lookup dictionary "memory" = Some memory ->
  Dict.lookup dictionary "disk" = Some disk ->
  str (get_field "name" self) = Some name ->
  snd (apply dictionary self) = Returned
  /\ to_dict (fst (apply dictionary self))
     = Some (VDict [ (VStr "name", VStr name);
                     (VStr "cpu_cores", cpu_cores);
                     (VStr "memory", memory);
                     (VStr "disk", disk) ]).
Proof.
  intros Hc Hm Hd Hn. unfold apply. rewrite Hc, Hm, Hd. cbn [fst snd].
  split; [reflexivity|].
  set (s1 := setattr HardwarePreset "cpu_cores" cpu_cores self).
  set (s2 := setattr HardwarePreset "memory" memory s1).
  set (s3 := setattr HardwarePreset "disk" disk s2).
  assert (Hdisk : get_field "disk" s3 = disk)
    by (apply get_field_setattr_eq; reflexivity).
  assert (Hmem : get_field "memory" s3 = memory).
  { unfold s3. rewrite (get_field_setattr_ne HardwarePreset "disk" "memory")
      by discriminate.
    apply get_field_setattr_eq; reflexivity. }
  assert (Hcpu : get_field "cpu_cores" s3 = cpu_cores).
  { unfold s3, s2.
    rewrite (get_field_setattr_ne HardwarePreset "disk" "cpu_cores")
      by discriminate.
    rewrite (get_field_setattr_ne HardwarePreset "memory" "cpu_cores")
      by discriminate.
    apply get_field_setattr_eq; reflexivity. }
  assert (Hname : get_field "name" s3 = get_field "name" self).
  { unfold s3, s2, s1.
    rewrite (get_field_setattr_ne HardwarePreset "disk" "name") by discriminate.
    rewrite (get_field_setattr_ne HardwarePreset "memory" "name") by discriminate.
    now rewrite (get_field_setattr_ne HardwarePreset "cpu_cores" "name")
      by discriminate. }
  unfold to_dict. now rewrite Hname, Hn, Hcpu, Hmem, Hdisk.
Qed.

Lemma X18_witness :
  snd (apply MoreSamples.resources MoreSamples.default_preset) = Returned
  /\ to_dict (fst (apply MoreSamples.resources MoreSamples.default_preset))
     = Some (VDict [ (VStr "name", VStr "default");
                     (VStr "cpu_cores", VInt 4);
                     (VStr "memory", VInt 8192);
                     (VStr "disk", VInt 100) ]).
Proof.
  apply (X18_apply_then_to_dict MoreSamples.resources
           MoreSamples.default_preset (VInt 4) (VInt 8192) (VInt 100)
           "default"); reflexivity.
Defined.

(** X19: [apply] assigns [cpu_cores], [memory] and [disk] and nothing
    else: every other field of the preset, its name among them, is as
    before, whether the call returns or raises. *)
Theorem X19_apply_frame (dictionary : list (pyval * pyval))
        (self : instance) (name : string) :
  name <> "cpu_cores" -> name <> "memory" -> name <> "disk" ->
  get_field name (fst (apply dictionary self)) = get_field name self.
Proof.
  intros Hc Hm Hd. unfold apply.
  destruct (Dict.lookup dictionary "cpu_cores"); [|reflexivity].
  destruct (Dict.lookup dictionary "memory"); cbn [fst];
    [|now rewrite get_field_setattr_ne by congruence].
  destruct (Dict.lookup dictionary "disk"); cbn [fst];
    now rewrite !get_field_setattr_ne by congruence.
Qed.

Lemma X19_witness :
  get_field "name" (fst (apply MoreSamples.resources MoreSamples.default_preset))
  = get_field "name" MoreSamples.default_preset.
Proof.
  apply (X19_apply_frame MoreSamples.resources MoreSamples.default_preset
           "name"); discriminate.
Defined.

(** X20: [apply] is not all-or-nothing: with a dictionary that has
    [cpu_cores] but no [memory], the call raises [KeyError] for
    [memory] after [cpu_cores] was already assigned, and [disk] is left
    as it was. *)
Theorem X20_apply_partial (dictionary : list (pyval * pyval))
        (self : instance) (cpu_cores : pyval) :
  Dict.lookup dictionary "cpu_cores" = Some cpu_cores ->
  Dict.lookup dictionary "memory" = None ->
  snd (apply dictionary self) = KeyError "memory"
  /\ get_field "cpu_cores" (fst (apply dictionary self)) = cpu_cores
  /\ get_field "disk" (fst (apply dictionary self)) = get_field "disk" self.
Proof.
  intros Hc Hm. unfold apply. rewrite Hc, Hm. cbn [fst snd].
  split; [reflexivity|]. split.
  - now apply get_field_setattr_eq.
  - now rewrite get_field_setattr_ne by discriminate.
Qed.

Lemma X20_witness :
  snd (apply [(VStr "cpu_cores", VInt 2)] MoreSamples.default_preset)
  = KeyError "memory"
  /\ get_field "cpu_cores"
       (fst (apply [(VStr "cpu_cores", VInt 2)] MoreSamples.default_preset))
     = VInt 2
  /\ get_field "disk"
       (fst (apply [(VStr "cpu_cores", VInt 2)] MoreSamples.default_preset))
     = get_field "disk" MoreSamples.default_preset.
Proof.
  apply (X20_apply_partial [(VStr "cpu_cores", VInt 2)]
           MoreSamples.default_preset (VInt 2)); reflexivity.
Defined.

End PresetMore.
